(** * Comprehensive Stock Check: the scoring engine of [app.py]

    A shallow embedding of the deterministic part of [app.py] (the
    Alpha Vantage extractor and scorer, the Yahoo scorer, the growth
    calculator, the key-bar detector, the provider selection and the
    score aggregation), and the properties of the specification that were
    checked against it.

    Conventions of the embedding.
    - Python numbers are exact rationals ([Q]); a NumPy cell is a [num],
      a rational or [NaN].  Rounding of binary floating point is not
      modelled: every threshold is compared exactly.
    - Python's [None] is [None]; a list of [float | None] is a
      [list (option _)].
    - A [dict] with string keys (a JSON object, a quarterly report, the
      rows of a statement table, the columns of a price frame) is a
      [gmap string _].
    - An uncaught exception is the [None] of an [option] result; a
      [try/except: pass] block falls back to the value the scores had
      when the block was entered.
    - Mutable [DataFrame]s live in a store indexed by references, so that
      [df.copy()] and column assignment are visible as store updates. *)

From Stdlib Require Import QArith Qabs Qminmax Lqa.
From stdpp Require Import gmap strings list fin_maps.

Local Open Scope Q_scope.

(** ** Numbers *)

Module Num.

(** Python's [x > y], [x >= y] and [x != y] on exact numbers. *)
Definition gtb (x y : Q) : bool := negb (Qle_bool x y).
Definition geb (x y : Q) : bool := Qle_bool y x.
Definition neb (x y : Q) : bool := negb (Qeq_bool x y).

(** A NumPy [float64] cell: a number or [NaN]. *)
Inductive num : Type :=
| NaN : num
| Fin (q : Q) : num.

(** [pd.isna] *)
Definition isna (x : num) : bool :=
  match x with NaN => true | Fin _ => false end.

Definition lift2 (f : Q -> Q -> Q) (x y : num) : num :=
  match x, y with
  | Fin a, Fin b => Fin (f a b)
  | _, _ => NaN
  end.

Definition sub : num -> num -> num := lift2 Qminus.
Definition add : num -> num -> num := lift2 Qplus.
Definition mul : num -> num -> num := lift2 Qmult.

(** Every division of the scorer is guarded by [!= 0]; a zero divisor,
    which NumPy turns into an infinity or a NaN, is given [NaN]. *)
Definition div (x y : num) : num :=
  match x, y with
  | Fin a, Fin b => if Qeq_bool b 0 then NaN else Fin (a / b)
  | _, _ => NaN
  end.

Definition abs (x : num) : num :=
  match x with NaN => NaN | Fin a => Fin (Qabs a) end.

(** Comparisons with [NaN] are false, except [!=], which is true. *)
Definition gt (x y : num) : bool :=
  match x, y with Fin a, Fin b => gtb a b | _, _ => false end.
Definition ge (x y : num) : bool :=
  match x, y with Fin a, Fin b => geb a b | _, _ => false end.
Definition ne (x y : num) : bool :=
  match x, y with Fin a, Fin b => neb a b | _, _ => true end.
Definition lt (x y : num) : bool := gt y x.
Definition le (x y : num) : bool := ge y x.

Definition of_Z (z : Z) : num := Fin (inject_Z z).

End Num.

Import Num.

Notation "0.5" := (1 # 2) : Q_scope.

(** ** Growth/acceleration calculator (primary path) *)

(** One of the four unrolled blocks of [check_growth_acceleration]:
    [len(values) > i+4 and values[i+4] != 0 and not pd.isna(values[i])
     and not pd.isna(values[i+4])]. *)
Definition yoy_block (values : list num) (i : nat) : option num :=
  match values !! i, values !! (i + 4)%nat with
  | Some cur, Some base =>
      if ne base (Fin 0) && negb (isna cur) && negb (isna base)
      then Some (mul (div (sub cur base) (abs base)) (Fin 100))
      else None
  | _, _ => None
  end.

(** [check_growth_acceleration(values)]: the acceleration flag and the
    list of growth rates. *)
Definition check_growth_acceleration (values : list num)
  : bool * list (option num) :=
  if (length values <? 5)%nat then (false, [])
  else
    let growth_rates :=
      [yoy_block values 0; yoy_block values 1;
       yoy_block values 2; yoy_block values 3] in
    match growth_rates !! 0%nat, growth_rates !! 1%nat with
    | Some (Some g0), Some (Some g1) => (gt g0 g1, growth_rates)
    | _, _ => (false, growth_rates)
    end.

(** ** Fundamental scorer, primary (Yahoo) path *)

Record scores : Type := Scores {
  sales_growth : Q;
  gross_margin : Q;
  earnings : Q;
  rule_of_40 : Q;
  roe : Q
}.

(** The initial [scores] dictionary. *)
Definition no_scores : scores := Scores 0 0 0 0 0.

(** [sum(fund_scores.values())] *)
Definition sum_scores (s : scores) : Q :=
  sales_growth s + gross_margin s + earnings s + rule_of_40 s + roe s.

(** What the primary provider returns: the rows of the quarterly income
    statement and balance sheet by line item (most recent quarter first)
    and the company-info map. *)
Record fund_data : Type := FundData {
  income : gmap string (list num);
  balance : gmap string (list num);
  info : gmap string num
}.

(** Python's [xs[0]] inside a [try]: [None] stands for the IndexError. *)
Definition first {A} (xs : list A) : option A := xs !! 0%nat.

Module Yahoo.

(** Block 1, sales growth: the score and [details['sales_growth']]. *)
Definition sales_block (inc : gmap string (list num))
  : Q * list (option num) :=
  match inc !! "Total Revenue" with
  | Some row =>
      let revenue := take 8 row in
      let '(is_accelerating, growth_rates) :=
        check_growth_acceleration revenue in
      let latest_yoy := default None (first growth_rates) in
      let score :=
        match latest_yoy with
        | Some y =>
            if gt y (Fin 30) then 1
            else (if is_accelerating then 0.5 else 0)
                 + (if gt y (Fin 15) then 0.5 else 0)
        | None => 0
        end in
      (score, take 4 growth_rates)
  | None => (0, [])
  end.

(** [gross_margin_values] of block 2. *)
Definition gross_margin_values (inc : gmap string (list num))
  : list (option num) :=
  match inc !! "Gross Profit", inc !! "Total Revenue" with
  | Some gp_row, Some rev_row =>
      let gross_profit := take 4 gp_row in
      let revenue := take 4 rev_row in
      if (length revenue =? length gross_profit)%nat then
        zip_with (fun r g =>
                    if ne r (Fin 0) then Some (mul (div g r) (Fin 100))
                    else None)
                 revenue gross_profit
      else []
  | _, _ => []
  end.

(** The scoring rule of block 2. *)
Definition margin_rule (latest_margin prev_margin : option num) : Q :=
  match latest_margin with
  | Some latest =>
      (match prev_margin with
       | Some prev => if gt latest prev then 0.5 else 0
       | None => 0
       end)
      + (if gt latest (Fin 40) then 0.5 else 0)
  | None => 0
  end.

(** Block 2, gross margin. *)
Definition margin_block (inc : gmap string (list num)) : Q :=
  match gross_margin_values inc with
  | latest_margin :: prev_margin :: _ =>
      margin_rule latest_margin prev_margin
  | _ => 0
  end.

(** Block 3, earnings growth. *)
Definition earnings_block (inc : gmap string (list num))
  : Q * list (option num) :=
  match inc !! "Net Income" with
  | Some row =>
      let earnings := take 8 row in
      let '(is_accelerating, growth_rates) :=
        check_growth_acceleration earnings in
      let latest_yoy := default None (first growth_rates) in
      let score :=
        match latest_yoy with
        | Some y =>
            (if is_accelerating then 0.5 else 0)
            + (if gt y (Fin 20) then 0.5 else 0)
        | None => 0
        end in
      (score, take 4 growth_rates)
  | None => (0, [])
  end.

(** Block 4: [revenue_growth], from [values[:2]]. *)
Definition revenue_growth (inc : gmap string (list num)) : option num :=
  match inc !! "Total Revenue" with
  | Some row =>
      match take 2 row with
      | [r0; r1] =>
          if ne r1 (Fin 0)
          then Some (mul (div (sub r0 r1) (abs r1)) (Fin 100))
          else None
      | _ => None
      end
  | None => None
  end.

(** Block 4: [profit_margin_pct]; the outer [None] is the IndexError
    of [.values[0]] on a row without columns. *)
Definition profit_margin_pct (inc : gmap string (list num))
  : option (option num) :=
  let margin_of (row rev_row : list num) :=
    top ← first row;
    revenue ← first rev_row;
    Some (if ne revenue (Fin 0)
          then Some (mul (div top revenue) (Fin 100)) else None) in
  match inc !! "Gross Profit", inc !! "EBITDA", inc !! "Total Revenue" with
  | Some gp_row, _, Some rev_row => margin_of gp_row rev_row
  | None, Some ebitda_row, Some rev_row => margin_of ebitda_row rev_row
  | _, _, _ => Some None
  end.

(** Block 4, Rule of 40. *)
Definition rule_of_40_block (inc : gmap string (list num)) : Q :=
  match profit_margin_pct inc with
  | Some margin =>
      match revenue_growth inc, margin with
      | Some g, Some m => if ge (add g m) (Fin 40) then 1 else 0
      | _, _ => 0
      end
  | None => 0
  end.

(** Block 5: the derived per-quarter annualised ROE values. *)
Definition roe_quarters (inc bal : gmap string (list num))
  : list (option num) :=
  match inc !! "Net Income", bal !! "Stockholders Equity" with
  | Some ni_row, Some eq_row =>
      zip_with (fun ni eq =>
                  if ne eq (Fin 0) && negb (isna ni) && negb (isna eq)
                  then Some (mul (div (mul ni (Fin 4)) eq) (Fin 100))
                  else None)
               (take 4 ni_row) (take 4 eq_row)
  | _, _ => []
  end.

(** Block 5, return on equity. *)
Definition roe_block (d : fund_data) : Q :=
  match info d !! "returnOnEquity" with
  | Some r =>
      let roe_pct := mul r (Fin 100) in
      if ge roe_pct (Fin 15) then 1 else 0
  | None =>
      match roe_quarters (income d) (balance d) with
      | Some q0 :: _ => if ge q0 (Fin 15) then 1 else 0
      | _ => 0
      end
  end.

(** [calculate_fundamental_scores(fund_data)], the scores. *)
Definition calculate_fundamental_scores (fd : option fund_data) : scores :=
  match fd with
  | None => no_scores
  | Some d =>
      {| sales_growth := fst (sales_block (income d));
         gross_margin := margin_block (income d);
         earnings := fst (earnings_block (income d));
         rule_of_40 := rule_of_40_block (income d);
         roe := roe_block d |}
  end.

End Yahoo.

(** ** Quarterly series extractor and scorer, secondary (Alpha Vantage) path *)

(** One element of [quarterlyReports]: field name to field text. *)
Abbreviation report := (gmap string string).

Record details : Type := Details {
  d_sales : list Z;
  d_earnings : list Z;
  d_gross_profit : list Z;
  d_sales_growth : list (option Q);
  d_gross_margin : list (option Q);
  d_earnings_growth : list (option Q)
}.

Definition no_details : details := Details [] [] [] [] [] [].

Section AlphaVantage.

(** Python's builtin [int] on a string; [None] is its ValueError. *)
Variable py_int : string -> option Z.

(** [int(x) if x and x != 'None' else 0], for [x = q.get(key)]. *)
Definition int_or_zero (x : option string) : option Z :=
  match x with
  | Some s =>
      if negb (String.eqb s "") && negb (String.eqb s "None")
      then py_int s else Some 0%Z
  | None => Some 0%Z
  end.

(** The extraction loop over [income_data[:8]], one metric. *)
Definition extract (key : string) (income_data : list report)
  : option (list Z) :=
  mapM (fun q : report => int_or_zero (q !! key)) (take 8 income_data).

(** The body of the YoY loops. *)
Definition av_yoy (current year_ago : Z) : option Q :=
  if negb (year_ago =? 0)%Z && negb (current =? 0)%Z
  then Some (inject_Z (current - year_ago) / inject_Z (Z.abs year_ago)
             * 100)
  else None.

(** The growth list of blocks 1 and 3: eight offsets from twelve
    quarters on, four from eight on, four [None] below. *)
Definition growth_list (key : string) (income_data : list report)
           (currents : list Z) : option (list (option Q)) :=
  let year_ago (i : nat) : option Z :=
    q ← income_data !! (i + 4)%nat; int_or_zero (q !! key) in
  if (12 <=? length income_data)%nat then
    mapM (fun i => ya ← year_ago i;
                   Some (av_yoy (default 0%Z (currents !! i)) ya))
         (seq 0 8)
  else if (8 <=? length income_data)%nat then
    mapM (fun i => cur ← currents !! i; ya ← year_ago i;
                   Some (av_yoy cur ya))
         (seq 0 4)
  else Some [None; None; None; None].

(** Scoring of block 1 from [sales_growth[0]] and [sales_growth[1]]. *)
Definition sales_rule (latest_yoy prev_yoy : option Q) : Q :=
  match latest_yoy with
  | Some latest =>
      if gtb latest 30 then 1
      else (match prev_yoy with
            | Some prev => if gtb latest prev then 0.5 else 0
            | None => 0
            end)
           + (if gtb latest 15 then 0.5 else 0)
  | None => 0
  end.

(** Scoring of block 3. *)
Definition earnings_rule (latest_yoy prev_yoy : option Q) : Q :=
  match latest_yoy with
  | Some latest =>
      (match prev_yoy with
       | Some prev => if gtb latest prev then 0.5 else 0
       | None => 0
       end)
      + (if gtb latest 20 then 0.5 else 0)
  | None => 0
  end.

(** Blocks 1 and 3 score only when a growth list was computed. *)
Definition growth_score (rule : option Q -> option Q -> Q)
           (income_data : list report) (growth : list (option Q)) : Q :=
  if (8 <=? length income_data)%nat then
    rule (default None (growth !! 0%nat)) (default None (growth !! 1%nat))
  else 0.

(** [gross_margin_values] of block 2. *)
Definition av_margin_values (revenues gross_profits : list Z)
  : list (option Q) :=
  imap (fun i gp =>
          match revenues !! i with
          | Some rev =>
              if negb (rev =? 0)%Z && negb (gp =? 0)%Z
              then Some (inject_Z gp / inject_Z rev * 100)
              else None
          | None => None
          end)
       (take 8 gross_profits).

(** Scoring of block 2. *)
Definition av_margin_rule (latest_margin prev_margin : option Q) : Q :=
  match latest_margin with
  | Some latest =>
      (match prev_margin with
       | Some prev => if gtb latest prev then 0.5 else 0
       | None => 0
       end)
      + (if gtb latest 40 then 0.5 else 0)
  | None => 0
  end.

Definition av_margin_score (margins : list (option Q)) : Q :=
  match margins with
  | latest_margin :: prev_margin :: _ =>
      av_margin_rule latest_margin prev_margin
  | _ => 0
  end.

(** Block 4, Rule of 40. *)
Definition av_rule_of_40 (income_data : list report)
           (revenues gross_profits : list Z) : option Q :=
  if (5 <=? length income_data)%nat then
    latest_rev ← revenues !! 0%nat;
    q4 ← income_data !! 4%nat;
    year_ago_rev ← int_or_zero (q4 !! "totalRevenue");
    if negb (year_ago_rev =? 0)%Z then
      let revenue_growth :=
        inject_Z (latest_rev - year_ago_rev)
        / inject_Z (Z.abs year_ago_rev) * 100 in
      gp0 ← gross_profits !! 0%nat;
      if negb (latest_rev =? 0)%Z && negb (gp0 =? 0)%Z then
        let profit_margin := inject_Z gp0 / inject_Z latest_rev * 100 in
        Some (if geb (revenue_growth + profit_margin) 40 then 1 else 0)
      else Some 0
    else Some 0
  else Some 0.

(** [calculate_alpha_vantage_fundamentals(income_data, ticker)];
    [None] is an exception leaving the function. *)
Definition calculate_alpha_vantage_fundamentals
           (income_data : list report) (ticker : string)
  : option (scores * details) :=
  if (length income_data <? 4)%nat then Some (no_scores, no_details)
  else
    revenues ← extract "totalRevenue" income_data;
    net_incomes ← extract "netIncome" income_data;
    gross_profits ← extract "grossProfit" income_data;
    sales_growth ← growth_list "totalRevenue" income_data revenues;
    let margins := av_margin_values revenues gross_profits in
    earnings_growth ← growth_list "netIncome" income_data net_incomes;
    r40 ← av_rule_of_40 income_data revenues gross_profits;
    Some ({| sales_growth := growth_score sales_rule income_data sales_growth;
             gross_margin := av_margin_score margins;
             earnings :=
               growth_score earnings_rule income_data earnings_growth;
             rule_of_40 := r40;
             roe := 0 |},
          {| d_sales := revenues;
             d_earnings := net_incomes;
             d_gross_profit := gross_profits;
             d_sales_growth := sales_growth;
             d_gross_margin := margins;
             d_earnings_growth := earnings_growth |}).

End AlphaVantage.

(** The ROE supplement of the main flow when Alpha Vantage backs the
    other four indicators; [yahoo_info = None] is an exception raised by
    the lookup, which the [try] swallows. *)
Definition roe_supplement (yahoo_info : option (gmap string num))
           (fund_scores : scores) : scores :=
  match yahoo_info with
  | Some inf =>
      match inf !! "returnOnEquity" with
      | Some roe_ttm =>
          let roe_pct :=
            if lt roe_ttm (Fin 1) then mul roe_ttm (Fin 100) else roe_ttm in
          if ge roe_pct (Fin 15)
          then {| sales_growth := sales_growth fund_scores;
                  gross_margin := gross_margin fund_scores;
                  earnings := earnings fund_scores;
                  rule_of_40 := rule_of_40 fund_scores;
                  roe := 1 |}
          else fund_scores
      | None => fund_scores
      end
  | None => fund_scores
  end.

(** A decimal reading of [int]: an optional sign and ASCII digits. *)
Definition digit_of (c : Ascii.ascii) : option Z :=
  let n := Ascii.nat_of_ascii c in
  if (48 <=? n)%nat && (n <=? 57)%nat then Some (Z.of_nat (n - 48)) else None.

Fixpoint digits_value (acc : Z) (s : string) : option Z :=
  match s with
  | EmptyString => Some acc
  | String c rest =>
      match digit_of c with
      | Some d => digits_value (10 * acc + d)%Z rest
      | None => None
      end
  end.

Definition int_decimal (s : string) : option Z :=
  match s with
  | EmptyString => None
  | String c rest =>
      if Ascii.eqb c (Ascii.ascii_of_nat 45) then
        (if String.eqb rest "" then None else Z.opp <$> digits_value 0%Z rest)
      else if Ascii.eqb c (Ascii.ascii_of_nat 43) then
        (if String.eqb rest "" then None else digits_value 0%Z rest)
      else digits_value 0%Z s
  end.

(** ** Price frames and the store of mutable frames *)

(** A column of a [DataFrame]: floats, or the booleans of a mask. *)
Inductive column : Type :=
| NumCol (xs : list num)
| BoolCol (bs : list bool).

(** A [DataFrame] on a positional index of [rows] rows. *)
Record frame : Type := Frame {
  rows : nat;
  cols : gmap string column
}.

Inductive cell : Type :=
| CNum (x : num)
| CBool (b : bool).

(** One row of a frame, as [iloc] returns it: its position and its
    cells by column name. *)
Record row : Type := Row {
  row_pos : nat;
  row_cells : gmap string cell
}.

Definition cell_at (i : nat) (c : column) : option cell :=
  match c with
  | NumCol xs => CNum <$> xs !! i
  | BoolCol bs => CBool <$> bs !! i
  end.

Definition iloc (f : frame) (i : nat) : row :=
  {| row_pos := i; row_cells := omap (cell_at i) (cols f) |}.

Abbreviation ref := positive.
Abbreviation store := (gmap positive frame).

(** Computations on the store; the [None] of the result is an exception,
    which leaves the store as it was when raised. *)
Definition M (A : Type) : Type := store -> option A * store.

Definition ret {A} (a : A) : M A := fun s => (Some a, s).

Definition bind {A B} (m : M A) (k : A -> M B) : M B :=
  fun s => match m s with
           | (Some a, s') => k a s'
           | (None, s') => (None, s')
           end.

Definition raise {A} : M A := fun s => (None, s).

#[global] Instance M_ret : MRet M := @ret.
#[global] Instance M_bind : MBind M := fun A B k m => bind m k.

(** [df.copy()]: a new frame with the same contents. *)
Definition copy (r : ref) : M ref :=
  fun s => match s !! r with
           | Some f => let r' := fresh (dom s) in (Some r', <[r' := f]> s)
           | None => (None, s)
           end.

(** [len(df)] *)
Definition len (r : ref) : M nat :=
  fun s => (rows <$> s !! r, s).

(** [df[name]] for a numeric column; a missing column is a KeyError. *)
Definition get_col (r : ref) (name : string) : M (list num) :=
  fun s => match s !! r with
           | Some f => match cols f !! name with
                       | Some (NumCol xs) => (Some xs, s)
                       | _ => (None, s)
                       end
           | None => (None, s)
           end.

(** [df[name] = c] updates the frame in place. *)
Definition set_col (r : ref) (name : string) (c : column) : M unit :=
  fun s => match s !! r with
           | Some f =>
               (Some tt, <[r := Frame (rows f) (<[name := c]> (cols f))]> s)
           | None => (None, s)
           end.

Definition read (r : ref) : M frame := fun s => (s !! r, s).

(** ** Series operations *)

Definition fin_val (x : num) : option Q :=
  match x with Fin q => Some q | NaN => None end.

Definition Qsum (qs : list Q) : Q := foldr Qplus 0 qs.

Definition mean (qs : list Q) : Q :=
  Qsum qs / inject_Z (Z.of_nat (length qs)).

Definition maximum (qs : list Q) : Q :=
  match qs with
  | [] => 0
  | q :: rest => foldr Qmax q rest
  end.

(** The [w] entries ending at position [i]. *)
Definition window {A} (w i : nat) (xs : list A) : list A :=
  take w (drop (S i - w) xs).

(** [xs.rolling(window=w).agg()]: position [i] aggregates the window
    that ends at [i], itself included; it is NaN while fewer than [w]
    entries are available or when the window holds a NaN. *)
Definition rolling (w : nat) (agg : list Q -> Q) (xs : list num)
  : list num :=
  imap (fun i _ =>
          if (S i <? w)%nat then NaN
          else match mapM fin_val (window w i xs) with
               | Some qs => Fin (agg qs)
               | None => NaN
               end)
       xs.

(** [xs.shift(1)] *)
Definition shift1 (xs : list num) : list num :=
  take (length xs) (NaN :: xs).

(** [df.tail(k)], as the positions it keeps. *)
Definition tail_positions (k n : nat) : list nat :=
  seq (n - k) (n - (n - k)).

(** ** Key-bar detector *)

Definition detect_key_bars (df : option ref) : M (option ref * option row) :=
  match df with
  | None => ret (None, None)
  | Some df0 =>
      n ← len df0;
      if (n <? 30)%nat then ret (None, None)
      else
        df ← copy df0;
        volume ← get_col df "Volume";
        set_col df "Volume_SMA30" (NumCol (rolling 30 mean volume));;
        close ← get_col df "Close";
        open ← get_col df "Open";
        set_col df "Open_Close_Change_Pct"
          (NumCol (zip_with (fun d o => mul (div d o) (Fin 100))
                            (zip_with sub close open) open));;
        high ← get_col df "High";
        set_col df "High_5D_Previous"
          (NumCol (rolling 5 maximum (shift1 high)));;
        volume ← get_col df "Volume";
        volume_sma30 ← get_col df "Volume_SMA30";
        change_pct ← get_col df "Open_Close_Change_Pct";
        high ← get_col df "High";
        high_5d_previous ← get_col df "High_5D_Previous";
        let is_key_bar :=
          zip_with andb
            (zip_with andb
               (zip_with gt volume volume_sma30)
               (map (fun c => gt (abs c) (Fin (3 # 2))) change_pct))
            (zip_with gt high high_5d_previous) in
        set_col df "Is_Key_Bar" (BoolCol is_key_bar);;
        f ← read df;
        let recent_data := tail_positions 10 (rows f) in
        let recent_key_bars :=
          filter (fun i => is_key_bar !! i = Some true) recent_data in
        match last recent_key_bars with
        | Some i => ret (Some df, Some (iloc f i))
        | None => ret (Some df, None)
        end
  end.

(** [calculate_key_bar_score(df, recent_key_bar)], the score. *)
Definition calculate_key_bar_score (df : option ref)
           (recent_key_bar : option row) : M Q :=
  match df, recent_key_bar with
  | Some df, Some kb =>
      close ← get_col df "Close";
      match last close, row_cells kb !! "Close" with
      | Some current_price, Some (CNum kb_close) =>
          ret (if le current_price (mul kb_close (Fin (105 # 100)))
               then 0.5 + 0.5 else 0.5)
      | _, _ => raise
      end
  | _, _ => ret 0
  end.

(** A price bar of the price-history provider. *)
Record bar : Type := Bar {
  b_open : Q;
  b_high : Q;
  b_low : Q;
  b_close : Q;
  b_volume : Q
}.

(** The frame the provider returns for a list of bars, oldest first. *)
Definition frame_of_bars (bars : list bar) : frame :=
  {| rows := length bars;
     cols := list_to_map
               [("Open", NumCol (map (fun b => Fin (b_open b)) bars));
                ("High", NumCol (map (fun b => Fin (b_high b)) bars));
                ("Low", NumCol (map (fun b => Fin (b_low b)) bars));
                ("Close", NumCol (map (fun b => Fin (b_close b)) bars));
                ("Volume", NumCol (map (fun b => Fin (b_volume b)) bars))] |}.

(** ** Provider selection *)

(** The values of the secondary provider's JSON object: text, or the
    array of quarterly reports. *)
Inductive jval : Type :=
| JText (s : string)
| JReports (rs : list report).

Abbreviation json := (gmap string jval).

(** What the HTTP request does: it raises (transport error, timeout, a
    body that is not JSON), or replies with a status and a JSON object. *)
Inductive http_outcome : Type :=
| Raised (e : string)
| Replied (status_code : Z) (body : json).

(** ASCII whitespace, as [str.strip] removes it. *)
Definition is_space (c : Ascii.ascii) : bool :=
  let n := Ascii.nat_of_ascii c in
  ((9 <=? n)%nat && (n <=? 13)%nat) || ((28 <=? n)%nat && (n <=? 32)%nat).

(** [not key or key.strip() == ''] *)
Definition blank (key : string) : bool :=
  forallb is_space (String.list_ascii_of_string key).

(** Truth value of an optional string and of the fetched income data. *)
Definition truthy_str (x : option string) : bool :=
  match x with
  | Some s => negb (String.eqb s "")
  | None => false
  end.

Definition truthy_data (x : option jval) : bool :=
  match x with
  | Some (JText s) => negb (String.eqb s "")
  | Some (JReports rs) => negb (bool_decide (rs = []))
  | None => false
  end.

Section Selection.

(** The renderings used inside the messages: [str] of a JSON value, of
    a status code and of the first five keys. *)
Variable str_jval : jval -> string.
Variable str_status : Z -> string.
Variable str_keys : json -> string.
Variable py_int : string -> option Z.

(** [fetch_alpha_vantage_data(ticker, api_key)] on the outcome of its
    request: [(income_data, error)]. *)
Definition fetch_alpha_vantage_data (ticker api_key : string)
           (net : http_outcome) : option jval * option string :=
  if blank api_key
  then (None, Some "Please provide a valid Alpha Vantage API key")
  else
    match net with
    | Raised e =>
        (None, Some ("Error fetching Alpha Vantage data: " +:+ e))
    | Replied status_code income_json =>
        if negb (status_code =? 200)%Z then
          (None,
           Some ("Alpha Vantage API error: " +:+ str_status status_code))
        else
          match income_json !! "Error Message", income_json !! "Note",
                income_json !! "Information",
                income_json !! "quarterlyReports" with
          | Some m, _, _, _ =>
              (None, Some ("Alpha Vantage error: " +:+ str_jval m))
          | None, Some m, _, _ =>
              (None, Some ("Alpha Vantage rate limit: " +:+ str_jval m))
          | None, None, Some m, _ =>
              (None, Some ("Alpha Vantage info: " +:+ str_jval m))
          | None, None, None, None =>
              (None, Some ("No quarterly data. API returned: "
                           +:+ str_keys income_json))
          | None, None, None, Some income_data => (Some income_data, None)
          end
    end.

(** The outcome of the selection in the main flow: the flag [use_av],
    the income data kept for the scorer, and the warning shown to the
    user when the secondary provider was tried and failed. *)
Record selection : Type := Selection {
  use_av : bool;
  av_income : option jval;
  advisory : option (option string)
}.

Definition select_provider (ticker av_key : string) (net : http_outcome)
  : selection :=
  if negb (blank av_key) then
    let '(av_income, av_error) :=
      fetch_alpha_vantage_data ticker av_key net in
    if negb (truthy_str av_error) && truthy_data av_income
    then Selection true av_income None
    else Selection false av_income (Some av_error)
  else Selection false None None.

(** [fetch_fundamental_data(ticker)] on what the primary provider
    does: [(fund_data, error)]. *)
Definition fetch_fundamental_data (primary : fund_data + string)
  : option fund_data * option string :=
  match primary with
  | inl d => (Some d, None)
  | inr e => (None, Some ("Error fetching fundamentals: " +:+ e))
  end.

(** The scorer of the secondary path on the fetched data; text in the
    place of the reports has no [get]. *)
Definition av_scores (income_data : option jval) (ticker : string)
  : option (scores * details) :=
  match income_data with
  | Some (JReports rs) =>
      calculate_alpha_vantage_fundamentals py_int rs ticker
  | Some (JText s) =>
      if (String.length s <? 4)%nat then Some (no_scores, no_details)
      else None
  | None => None
  end.

(** The fundamental scores of one run; [None] is an exception that
    ends the run. *)
Definition fundamental_scores (ticker av_key : string)
           (net : http_outcome) (primary : fund_data + string)
           (yahoo_info : option (gmap string num)) : option scores :=
  let sel := select_provider ticker av_key net in
  if use_av sel then
    '(fund_scores, _) ← av_scores (av_income sel) ticker;
    Some (roe_supplement yahoo_info fund_scores)
  else
    let '(fund_data, fund_error) := fetch_fundamental_data primary in
    if truthy_str fund_error then Some no_scores
    else Some (Yahoo.calculate_fundamental_scores fund_data).

End Selection.

(** ** Technical scores and the aggregation *)

(** [calculate_stage] on numeric arguments. *)
Definition calculate_stage (current_price ma_50 ma_150 ma_200 : num)
  : string * Q :=
  if gt current_price ma_50 && gt ma_50 ma_150 && gt ma_150 ma_200
  then ("S2", 1)
  else if gt current_price ma_50 && gt ma_50 ma_150 && lt ma_150 ma_200
  then ("S1", 0.5)
  else if gt current_price ma_50 && lt ma_50 ma_150 && gt ma_150 ma_200
  then ("S3 Strong", 0.5)
  else ("Other", 0).

(** The market-pulse selection. *)
Definition pulse_score (market_pulse : string) : Q :=
  if String.eqb market_pulse "Green - Acceleration" then 1
  else if String.eqb market_pulse "Grey Strong - Accumulation" then 0.5
  else 0.

Definition atr_score (atr_percentile : Z) : Q :=
  if (50 <? atr_percentile)%Z then 1 else 0.

Record tech_scores : Type := TechScores {
  t_stage2 : Q;
  t_market_pulse : Q;
  t_atr_percentile : Q;
  t_accumulation_distribution : Q;
  t_insider_activity : Q;
  t_key_bar : Q
}.

(** [sum(tech_scores.values())] *)
Definition total_tech_score (t : tech_scores) : Q :=
  t_stage2 t + t_market_pulse t + t_atr_percentile t
  + t_accumulation_distribution t + t_insider_activity t + t_key_bar t.

(** The two radio buttons of the remarks tab. *)
Definition flag_score (yes : bool) : Q := if yes then 1 else 0.

Definition total_remarks_score (top_rated new_dev : bool) : Q :=
  flag_score top_rated + flag_score new_dev.

Definition max_score : Q := 13.

Definition total_score (tech fund remarks : Q) : Q := tech + fund + remarks.

Definition percentage (total : Q) : Q := total / max_score * 100.

Inductive rating : Type :=
| Excellent | Good | Average | Below_Average | Poor.

Definition rating_of (percentage : Q) : rating :=
  if geb percentage 75 then Excellent
  else if geb percentage 60 then Good
  else if geb percentage 45 then Average
  else if geb percentage 30 then Below_Average
  else Poor.

(** The summary of one run: total, percentage and rating. *)
Definition summary (t : tech_scores) (f : scores) (top_rated new_dev : bool)
  : Q * Q * rating :=
  let total :=
    total_score (total_tech_score t) (sum_scores f)
                (total_remarks_score top_rated new_dev) in
  (total, percentage total, rating_of (percentage total)).

(** ** Moving averages and the technical tab *)

(** [series.mean()]: NaN cells are skipped; a series without a number
    has mean NaN. *)
Definition series_mean (xs : list num) : num :=
  match omap fin_val xs with
  | [] => NaN
  | q :: qs => Fin (mean (q :: qs))
  end.

(** [data.tail(period)] *)
Definition tail_rows {A} (period : nat) (data : list A) : list A :=
  drop (length data - period) data.

(** [calc_ma(data, period)] *)
Definition calc_ma (data : list num) (period : nat) : option num :=
  if (length data <? period)%nat then None
  else Some (series_mean (tail_rows period data)).

(** Truth value of a moving average in [if ma_50 and ma_150 and ma_200]:
    [None] and zero are false, NaN is true. *)
Definition truthy_ma (x : option num) : bool :=
  match x with
  | Some v => ne v (Fin 0)
  | None => false
  end.

(** The stage score of the technical tab once 200 bars are there;
    [None] is the IndexError of [iloc[-1]] on an empty column. *)
Definition stage2_of (close : list num) : option Q :=
  current_price ← last close;
  let ma_50 := calc_ma close 50 in
  let ma_150 := calc_ma close 150 in
  let ma_200 := calc_ma close 200 in
  Some (if truthy_ma ma_50 && truthy_ma ma_150 && truthy_ma ma_200
        then match ma_50, ma_150, ma_200 with
             | Some a, Some b, Some c =>
                 snd (calculate_stage current_price a b c)
             | _, _, _ => 0
             end
        else 0).

(** The inputs the user sets on the technical tab. *)
Record tech_inputs : Type := TechInputs {
  i_market_pulse : string;
  i_atr_percentile : Z;
  i_accumulation : bool;
  i_insider : bool
}.

(** The technical tab of the main flow: the six scores. *)
Definition technical_tab (stock_df : ref) (inp : tech_inputs)
  : M tech_scores :=
  n ← len stock_df;
  stage2 ← (if (200 <=? n)%nat
            then close ← get_col stock_df "Close";
                 match stage2_of close with
                 | Some score => mret score
                 | None => raise
                 end
            else mret 0);
  res ← detect_key_bars (Some stock_df);
  kb_score ← calculate_key_bar_score (fst res) (snd res);
  mret {| t_stage2 := stage2;
          t_market_pulse := pulse_score (i_market_pulse inp);
          t_atr_percentile := atr_score (i_atr_percentile inp);
          t_accumulation_distribution := flag_score (i_accumulation inp);
          t_insider_activity := flag_score (i_insider inp);
          t_key_bar := kb_score |}.

(** The coloured mark beside the total. *)
Inductive mark : Type := Green | Yellow | Red.

Definition score_mark (percentage : Q) : mark :=
  if geb percentage 70 then Green
  else if geb percentage 50 then Yellow
  else Red.

(** ** Vocabulary of the statements *)

(** The year-over-year formula of both paths. *)
Definition yoy_formula (current year_ago : Q) : Q :=
  (current - year_ago) / Qabs year_ago * 100.

(** The quotient computed by the secondary path. *)
Definition av_formula (current year_ago : Z) : Q :=
  inject_Z (current - year_ago) / inject_Z (Z.abs year_ago) * 100.

(** The number of offsets of the secondary path's growth loops. *)
Definition offsets (n : nat) : nat :=
  if (12 <=? n)%nat then 8%nat else 4%nat.

(** The three shapes of a field that are read as zero. *)
Definition reads_as_zero (x : option string) : Prop :=
  x = None \/ x = Some "" \/ x = Some "None".

(** The coerced value of one metric of quarter [i]. *)
Definition coerced (py_int : string -> option Z) (key : string)
           (income_data : list report) (i : nat) : option Z :=
  q ← income_data !! i; int_or_zero py_int (q !! key).

(** The growth rate as the specification words it: defined only when
    [series[i]] and [series[i+4]] are present and non-zero. *)
Definition claimed_yoy (values : list num) (i : nat) : option num :=
  match values !! i, values !! (i + 4)%nat with
  | Some (Fin c), Some (Fin b) =>
      if neb c 0 && neb b 0 then Some (Fin (yoy_formula c b)) else None
  | _, _ => None
  end.

(** Sample data: a quarterly report with its three metrics. *)
Definition quarter (rev gp ni : string) : report :=
  list_to_map [("totalRevenue", rev); ("grossProfit", gp); ("netIncome", ni)].

(** Eight quarters of revenue 120, 100, 90, 80, 110, 95, 85, 75. *)
Definition eight_quarters : list report :=
  [quarter "120" "50" "12"; quarter "100" "35" "10";
   quarter "90" "30" "9"; quarter "80" "30" "8";
   quarter "110" "40" "11"; quarter "95" "30" "9";
   quarter "85" "30" "8"; quarter "75" "30" "7"].

Definition eight_revenues : list num :=
  map of_Z [120; 100; 90; 80; 110; 95; 85; 75]%Z.

Definition eight_result : scores * details :=
  default (no_scores, no_details)
          (calculate_alpha_vantage_fundamentals int_decimal
             eight_quarters "DEMO").

(** Five quarters, all with revenue. *)
Definition five_quarters : list report := take 5 eight_quarters.

(** A sub-score that moves in steps of one half. *)
Definition half_step (s : Q) : Prop := s == 0 \/ s == 0.5 \/ s == 1.

Definition binary (s : Q) : Prop := s == 0 \/ s == 1.

(** Acceleration: both rates are known and the latest is the greater. *)
Definition accelerating (latest prev : option Q) : Prop :=
  exists l p, latest = Some l /\ prev = Some p /\ p < l.

(** The sales-growth score in terms of the two latest rates. *)
Definition sales_score_ok (latest prev : option Q) (s : Q) : Prop :=
  half_step s
  /\ (s == 1 <->
      exists l, latest = Some l
                /\ (30 < l \/ (15 < l /\ accelerating latest prev)))
  /\ (s == 0 <->
      latest = None
      \/ exists l, latest = Some l /\ l <= 15 /\ ~ accelerating latest prev).

(** A score of two halves: one for acceleration, one for exceeding
    the threshold [thr]. *)
Definition additive_score_ok (thr : Q) (latest prev : option Q) (s : Q)
  : Prop :=
  half_step s
  /\ (s == 1 <->
      exists l, latest = Some l /\ thr < l /\ accelerating latest prev)
  /\ (s == 0 <->
      latest = None
      \/ exists l, latest = Some l /\ l <= thr /\ ~ accelerating latest prev).

(** Entry [i] of a list of optional rates, for either path. *)
Definition entry (g : list (option Q)) (i : nat) : option Q :=
  default None (g !! i).

Definition nentry (g : list (option num)) (i : nat) : option Q :=
  default None (g !! i) ≫= fin_val.

(** Sample data: a report whose revenue is the placeholder and whose
    other metrics are absent or empty. *)
Definition placeholder_quarter : report :=
  list_to_map [("totalRevenue", "None"); ("grossProfit", "")].

(** Revenue rising 20% year over year after 10% the quarter before. *)
Definition accelerating_income : gmap string (list num) :=
  {[ "Total Revenue" := map of_Z [120; 110; 1; 1; 100; 100; 1; 1]%Z ]}.

(** Margins of 50% after 35%, on both paths. *)
Definition margin_income : gmap string (list num) :=
  list_to_map [("Total Revenue", map of_Z [100; 100; 100; 100]%Z);
               ("Gross Profit", map of_Z [50; 35; 30; 30]%Z)].

Definition margin_quarters : list report :=
  [quarter "100" "50" "10"; quarter "100" "35" "10";
   quarter "100" "30" "10"; quarter "100" "30" "10"].

(** No gross profit against a revenue of 100. *)
Definition no_profit_quarters : list report :=
  [quarter "100" "0" "10"; quarter "100" "35" "10";
   quarter "100" "30" "10"; quarter "100" "30" "10"].

(** Five quarters: revenue 100 now and a year ago, 50 last quarter,
    gross profit a tenth of revenue. *)
Definition flat_year_income : gmap string (list num) :=
  list_to_map [("Total Revenue", map of_Z [100; 50; 100; 100; 100]%Z);
               ("Gross Profit", map of_Z [10; 5; 10; 10; 10]%Z)].

Definition flat_year_quarters : list report :=
  [quarter "100" "10" "1"; quarter "50" "5" "1"; quarter "100" "10" "1";
   quarter "100" "10" "1"; quarter "100" "10" "1"].

(** A reported return on equity of 150%. *)
Definition high_roe_info : gmap string num :=
  {[ "returnOnEquity" := Fin (3 # 2) ]}.

(** The result of the secondary scorer on sample data. *)
Definition av_sample (income_data : list report) : scores * details :=
  default (no_scores, no_details)
          (calculate_alpha_vantage_fundamentals int_decimal income_data
             "DEMO").

(** A cell holding the number zero. *)
Definition is_zero (x : num) : Prop := exists q, x = Fin q /\ q == 0.

(** The additive rule of the margin and earnings scores on rationals. *)
Definition additive_rule (thr : Q) (latest prev : option Q) : Q :=
  match latest with
  | Some l =>
      (match prev with
       | Some p => if gtb l p then 0.5 else 0
       | None => 0
       end)
      + (if gtb l thr then 0.5 else 0)
  | None => 0
  end.


Definition flat_year_data : fund_data :=
  {| income := flat_year_income; balance := ∅; info := ∅ |}.

(** The declared domains of the sub-scores. *)
Definition valid_tech (t : tech_scores) : Prop :=
  half_step (t_stage2 t) /\ half_step (t_market_pulse t)
  /\ binary (t_atr_percentile t) /\ binary (t_accumulation_distribution t)
  /\ binary (t_insider_activity t) /\ half_step (t_key_bar t).

Definition valid_fund (f : scores) : Prop :=
  half_step (sales_growth f) /\ half_step (gross_margin f)
  /\ half_step (earnings f) /\ binary (rule_of_40 f) /\ binary (roe f).

(** Sample sub-scores. *)
Definition sample_tech : tech_scores := TechScores 1 0.5 1 0 1 0.5.
Definition sample_fund : scores := Scores 1 0.5 0.5 1 0.

(** The response of the secondary provider when its rate limit is hit. *)
Definition rate_limited : json := {[ "Note" := JText "rate limit" ]}.

(** The scores the primary provider alone leads to. *)
Definition primary_scores (primary : fund_data + string) : scores :=
  match primary with
  | inl d => Yahoo.calculate_fundamental_scores (Some d)
  | inr _ => no_scores
  end.

(** A response that signals failure, or carries no quarterly reports. *)
Definition failure_response (body : json) : Prop :=
  is_Some (body !! "Error Message") \/ is_Some (body !! "Note")
  \/ is_Some (body !! "Information") \/ body !! "quarterlyReports" = None.

(** A computation that leaves every frame of [D] as it found it. *)
Definition keeps {A} (D : gset ref) (m : M A) : Prop :=
  forall (s : store) (r : ref), r ∈ D -> snd (m s) !! r = s !! r.

(** A flat market of thirty bars with one heavy day at the start, then a
    bar that closes 2% up on a new high with twice the usual volume. *)
Definition quiet_bar (volume : Q) : bar := Bar 100 100 100 100 volume.

Definition breakout_bars : list bar :=
  quiet_bar 1000 :: repeat (quiet_bar 10) 29 ++ [Bar 100 103 99 102 20].

Definition breakout_store : store :=
  {[ 1%positive := frame_of_bars breakout_bars ]}.

(** The columns of the frame of a list of bars. *)
Definition opens (bars : list bar) : list num :=
  map (fun b => Fin (b_open b)) bars.
Definition highs (bars : list bar) : list num :=
  map (fun b => Fin (b_high b)) bars.
Definition lows (bars : list bar) : list num :=
  map (fun b => Fin (b_low b)) bars.
Definition closes (bars : list bar) : list num :=
  map (fun b => Fin (b_close b)) bars.
Definition volumes (bars : list bar) : list num :=
  map (fun b => Fin (b_volume b)) bars.

(** The derived columns, as the detector computes them. *)
Definition volume_sma30 (bars : list bar) : list num :=
  rolling 30 mean (volumes bars).

Definition change_pct (bars : list bar) : list num :=
  zip_with (fun d o => mul (div d o) (Fin 100))
           (zip_with sub (closes bars) (opens bars)) (opens bars).

Definition high_5d_previous (bars : list bar) : list num :=
  rolling 5 maximum (shift1 (highs bars)).

Definition key_flags (bars : list bar) : list bool :=
  zip_with andb
    (zip_with andb
       (zip_with gt (volumes bars) (volume_sma30 bars))
       (map (fun c => gt (abs c) (Fin (3 # 2))) (change_pct bars)))
    (zip_with gt (highs bars) (high_5d_previous bars)).

(** The copy the detector returns. *)
Definition detected_frame (bars : list bar) : frame :=
  {| rows := length bars;
     cols := <["Is_Key_Bar" := BoolCol (key_flags bars)]>
              (<["High_5D_Previous" := NumCol (high_5d_previous bars)]>
                (<["Open_Close_Change_Pct" := NumCol (change_pct bars)]>
                  (<["Volume_SMA30" := NumCol (volume_sma30 bars)]>
                    (cols (frame_of_bars bars))))) |}.



(** The bar the detector reports: the last flagged one of the last ten. *)
Definition latest_key_bar (flags : list bool) (n : nat) : option nat :=
  last (filter (fun i => flags !! i = Some true) (tail_positions 10 n)).


(** The three metrics the secondary scorer reads from a report. *)
Definition metric (key : string) : Prop :=
  key = "totalRevenue" \/ key = "netIncome" \/ key = "grossProfit".

(** Four quarters, the second with a revenue that is no number. *)
Definition malformed_quarters : list report :=
  [quarter "100" "50" "10"; quarter "n/a" "35" "10";
   quarter "100" "30" "10"; quarter "100" "30" "10"].

(** The statements cut to the quarters the primary scorer reads: eight
    of the income statement, four of the balance sheet. *)
Definition first_quarters (d : fund_data) : fund_data :=
  {| income := take 8 <$> income d;
     balance := take 4 <$> balance d;
     info := info d |}.

(** An income statement with an EBITDA row and no gross profit. *)
Definition ebitda_income : gmap string (list num) :=
  list_to_map [("Total Revenue", map of_Z [100; 80]%Z);
               ("EBITDA", map of_Z [30; 20]%Z)].

(** The key-bar step of the technical tab: detect, then score. *)
Definition key_bar_step (stock_df : ref) : M Q :=
  res ← detect_key_bars (Some stock_df);
  calculate_key_bar_score (fst res) (snd res).

(** The number of entries of a column. *)
Definition column_length (c : column) : nat :=
  match c with
  | NumCol xs => length xs
  | BoolCol bs => length bs
  end.


(** Sample inputs of the technical tab. *)
Definition sample_inputs : tech_inputs :=
  TechInputs "Green - Acceleration" 60 true false.

(** Twenty quiet bars. *)
Definition short_bars : list bar := repeat (quiet_bar 10) 20.

Definition short_store : store := {[ 1%positive := frame_of_bars short_bars ]}.

(** * Properties *)

(** ** Comparisons *)

Lemma gtb_true (x y : Q) : gtb x y = true <-> y < x.
Proof.
  unfold gtb. rewrite negb_true_iff, <- not_true_iff_false, Qle_bool_iff.
  split; [apply Qnot_le_lt | apply Qlt_not_le].
Qed.

Lemma gtb_false (x y : Q) : gtb x y = false <-> x <= y.
Proof.
  unfold gtb. rewrite negb_false_iff. apply Qle_bool_iff.
Qed.

Lemma geb_true (x y : Q) : geb x y = true <-> y <= x.
Proof. unfold geb. apply Qle_bool_iff. Qed.

Lemma geb_false (x y : Q) : geb x y = false <-> x < y.
Proof.
  unfold geb. rewrite <- not_true_iff_false, Qle_bool_iff.
  split; [apply Qnot_le_lt | apply Qlt_not_le].
Qed.

Lemma neb_true (x y : Q) : neb x y = true <-> ~ x == y.
Proof.
  unfold neb. rewrite negb_true_iff, <- not_true_iff_false, Qeq_bool_iff.
  tauto.
Qed.

Lemma neb_false (x y : Q) : neb x y = false <-> x == y.
Proof. unfold neb. rewrite negb_false_iff. apply Qeq_bool_iff. Qed.

Lemma Qabs_zero (x : Q) : Qabs x == 0 -> x == 0.
Proof.
  apply Qabs_case; intros; lra.
Qed.

Lemma Qabs_nonzero_bool (x : Q) : ~ x == 0 -> Qeq_bool (Qabs x) 0 = false.
Proof.
  intros Hx. apply not_true_iff_false. rewrite Qeq_bool_iff.
  intros H. apply Hx, Qabs_zero, H.
Qed.

Lemma yoy_value (c b : Q) :
  ~ b == 0 ->
  mul (div (sub (Fin c) (Fin b)) (abs (Fin b))) (Fin 100)
  = Fin (yoy_formula c b).
Proof.
  intros Hb. unfold mul, div, sub, abs, lift2, yoy_formula.
  rewrite (Qabs_nonzero_bool b Hb). reflexivity.
Qed.

Lemma yoy_block_Some (values : list num) (i : nat) (x : num) :
  yoy_block values i = Some x <->
  exists c b, values !! i = Some (Fin c) /\ values !! (i + 4)%nat = Some (Fin b)
              /\ ~ b == 0 /\ x = Fin (yoy_formula c b).
Proof.
  unfold yoy_block.
  destruct (values !! i) as [[|c]|] eqn:Hc;
    destruct (values !! (i + 4)%nat) as [[|b]|] eqn:Hb;
    try (split; [try discriminate; unfold ne; simpl;
                 try rewrite andb_false_r; discriminate
                | intros (c' & b' & ? & ? & _); congruence]).
  unfold ne, isna. rewrite !andb_true_r.
  destruct (neb b 0) eqn:Hne.
  - apply neb_true in Hne. rewrite (yoy_value c b Hne).
    split.
    + intros [= <-]. exists c, b. auto.
    + intros (c' & b' & [= <-] & [= <-] & _ & ->). reflexivity.
  - apply neb_false in Hne.
    split; [discriminate |].
    intros (c' & b' & _ & [= <-] & Hnz & _). contradiction.
Qed.

Lemma growth_rates_short (values : list num) :
  (length values < 5)%nat -> check_growth_acceleration values = (false, []).
Proof.
  intros H. unfold check_growth_acceleration.
  destruct (Nat.ltb_spec (length values) 5); [reflexivity | lia].
Qed.

Lemma growth_rates_long (values : list num) :
  (5 <= length values)%nat ->
  snd (check_growth_acceleration values)
  = [yoy_block values 0; yoy_block values 1;
     yoy_block values 2; yoy_block values 3].
Proof.
  intros H. unfold check_growth_acceleration.
  destruct (Nat.ltb_spec (length values) 5); [lia |].
  simpl. destruct (yoy_block values 0), (yoy_block values 1); reflexivity.
Qed.

Lemma accelerating_long (values : list num) :
  (5 <= length values)%nat ->
  fst (check_growth_acceleration values)
  = match yoy_block values 0, yoy_block values 1 with
    | Some g0, Some g1 => gt g0 g1
    | _, _ => false
    end.
Proof.
  intros H. unfold check_growth_acceleration.
  destruct (Nat.ltb_spec (length values) 5); [lia |].
  simpl. destruct (yoy_block values 0), (yoy_block values 1); reflexivity.
Qed.

Lemma growth_rates_length (values : list num) :
  length (snd (check_growth_acceleration values))
  = if (length values <? 5)%nat then 0%nat else 4%nat.
Proof.
  destruct (Nat.ltb_spec (length values) 5) as [H|H].
  - rewrite growth_rates_short by lia. reflexivity.
  - rewrite growth_rates_long by lia. reflexivity.
Qed.

Lemma growth_rates_lookup (values : list num) (i : nat) (x : num) :
  snd (check_growth_acceleration values) !! i = Some (Some x) <->
  (5 <= length values)%nat /\ (i < 4)%nat /\ yoy_block values i = Some x.
Proof.
  destruct (Nat.ltb_spec (length values) 5) as [H|H].
  - rewrite growth_rates_short by lia. simpl. rewrite lookup_nil.
    split; [discriminate | lia].
  - rewrite growth_rates_long by lia.
    destruct i as [|[|[|[|i]]]]; simpl;
      try (split; [intros [= ->]; repeat split; auto; lia
                  | intros (_ & _ & ->); reflexivity]).
    split; [discriminate | lia].
Qed.

(** ** The secondary path: extraction and growth *)

Section AlphaVantageFacts.

Variable py_int : string -> option Z.

Lemma int_or_zero_missing (x : option string) :
  reads_as_zero x -> int_or_zero py_int x = Some 0%Z.
Proof. intros [-> | [-> | ->]]; reflexivity. Qed.

Lemma int_or_zero_present (s : string) :
  s <> "" -> s <> "None" -> int_or_zero py_int (Some s) = py_int s.
Proof.
  intros H1 H2. unfold int_or_zero.
  apply String.eqb_neq in H1, H2. rewrite H1, H2. reflexivity.
Qed.

Lemma extract_lookup key income_data zs (i : nat) :
  extract py_int key income_data = Some zs ->
  zs !! i = if (i <? 8)%nat then coerced py_int key income_data i else None.
Proof.
  unfold extract, coerced. intros H. apply mapM_Some in H.
  destruct (Nat.ltb_spec i 8) as [Hi|Hi].
  - destruct (income_data !! i) as [q|] eqn:Hq; simpl.
    + assert (Ht : take 8 income_data !! i = Some q)
        by (rewrite lookup_take_lt by lia; exact Hq).
      destruct (Forall2_lookup_l _ _ _ _ _ H Ht) as (z & Hz & Hqz).
      rewrite Hz. symmetry. exact Hqz.
    + destruct (zs !! i) as [z|] eqn:Hz; [|reflexivity].
      destruct (Forall2_lookup_r _ _ _ _ _ H Hz) as (q & Ht & _).
      rewrite lookup_take_lt in Ht by lia. congruence.
  - apply lookup_ge_None. apply Forall2_length in H.
    rewrite <- H, length_take. lia.
Qed.

Lemma extract_length key income_data zs :
  extract py_int key income_data = Some zs ->
  length zs = Nat.min 8 (length income_data).
Proof.
  unfold extract. intros H. apply mapM_Some, Forall2_length in H.
  rewrite <- H. apply length_take.
Qed.

Lemma av_yoy_Some (current year_ago : Z) (y : Q) :
  av_yoy current year_ago = Some y <->
  current <> 0%Z /\ year_ago <> 0%Z /\ y = av_formula current year_ago.
Proof.
  unfold av_yoy, av_formula.
  destruct (Z.eqb_spec year_ago 0), (Z.eqb_spec current 0); simpl;
    split; try discriminate; try (intros (? & ? & ?); congruence).
  intros [= <-]. auto.
Qed.

Lemma av_formula_yoy (current year_ago : Z) :
  av_formula current year_ago
  == yoy_formula (inject_Z current) (inject_Z year_ago).
Proof.
  unfold av_formula, yoy_formula.
  assert (E1 : inject_Z (current - year_ago)
               == inject_Z current - inject_Z year_ago).
  { unfold Z.sub. rewrite inject_Z_plus, inject_Z_opp. reflexivity. }
  assert (E2 : inject_Z (Z.abs year_ago) == Qabs (inject_Z year_ago)).
  { unfold Qabs, inject_Z. reflexivity. }
  rewrite E1, E2. reflexivity.
Qed.

Lemma growth_list_length key income_data currents g :
  growth_list py_int key income_data currents = Some g ->
  length g = offsets (length income_data).
Proof.
  unfold growth_list, offsets.
  destruct (12 <=? length income_data)%nat.
  - intros H. apply mapM_Some, Forall2_length in H. rewrite <- H.
    reflexivity.
  - destruct (8 <=? length income_data)%nat.
    + intros H. apply mapM_Some, Forall2_length in H. rewrite <- H.
      reflexivity.
    + intros [= <-]. reflexivity.
Qed.

Lemma growth_list_lookup key income_data zs g (i : nat) (y : Q) :
  extract py_int key income_data = Some zs ->
  growth_list py_int key income_data zs = Some g ->
  g !! i = Some (Some y) <->
  (8 <= length income_data)%nat /\ (i < offsets (length income_data))%nat
  /\ exists cur ya, coerced py_int key income_data i = Some cur
                    /\ coerced py_int key income_data (i + 4) = Some ya
                    /\ av_yoy cur ya = Some y.
Proof.
  intros Hx Hg. pose proof (extract_lookup _ _ _ i Hx) as Hzi.
  pose proof (growth_list_length _ _ _ _ Hg) as Hlen.
  unfold growth_list in Hg. unfold offsets in *.
  destruct (Nat.leb_spec 12 (length income_data)) as [H12|H12].
  - apply mapM_Some in Hg.
    split.
    + intros Hi. pose proof (lookup_lt_Some _ _ _ Hi) as Hlt.
      rewrite Hlen in Hlt.
      destruct (Forall2_lookup_r _ _ _ _ _ Hg Hi) as (j & Hj & Hf).
      apply lookup_seq in Hj as [-> _]. simpl in Hf.
      fold (coerced py_int key income_data (i + 4)) in Hf.
      destruct (coerced py_int key income_data (i + 4)) as [ya|] eqn:Hya;
        [|discriminate]. simpl in Hf. injection Hf as Hf.
      destruct (Nat.ltb_spec i 8); [|lia].
      destruct (lookup_lt_is_Some_2 income_data i ltac:(lia)) as [q Hq].
      assert (Hc : is_Some (coerced py_int key income_data i)).
      { rewrite <- Hzi. apply lookup_lt_is_Some.
        rewrite (extract_length _ _ _ Hx). lia. }
      destruct Hc as [cur Hc]. rewrite Hc in Hzi. rewrite Hzi in Hf.
      simpl in Hf. split; [lia|]. split; [lia|]. eauto.
    + intros (_ & Hi & cur & ya & Hc & Hya & Hy).
      destruct (Nat.ltb_spec i 8); [|lia]. rewrite Hc in Hzi.
      assert (Hs : seq 0 8 !! i = Some i) by (apply lookup_seq; lia).
      destruct (Forall2_lookup_l _ _ _ _ _ Hg Hs) as (o & Ho & Hf).
      simpl in Hf. fold (coerced py_int key income_data (i + 4)) in Hf.
      rewrite Hya, Hzi in Hf. simpl in Hf. congruence.
  - destruct (Nat.leb_spec 8 (length income_data)) as [H8|H8].
    + apply mapM_Some in Hg.
      split.
      * intros Hi. pose proof (lookup_lt_Some _ _ _ Hi) as Hlt.
        rewrite Hlen in Hlt.
        destruct (Forall2_lookup_r _ _ _ _ _ Hg Hi) as (j & Hj & Hf).
        apply lookup_seq in Hj as [-> _]. simpl in Hf.
        fold (coerced py_int key income_data (i + 4)) in Hf.
        destruct (Nat.ltb_spec i 8); [|lia]. rewrite Hzi in Hf.
        destruct (coerced py_int key income_data i) as [cur|]; [|discriminate].
        simpl in Hf.
        destruct (coerced py_int key income_data (i + 4)) as [ya|];
          [|discriminate]. simpl in Hf. injection Hf as Hf.
        split; [lia|]. split; [lia|]. eauto.
      * intros (_ & Hi & cur & ya & Hc & Hya & Hy).
        destruct (Nat.ltb_spec i 8); [|lia]. rewrite Hc in Hzi.
        assert (Hs : seq 0 4 !! i = Some i) by (apply lookup_seq; lia).
        destruct (Forall2_lookup_l _ _ _ _ _ Hg Hs) as (o & Ho & Hf).
        simpl in Hf. fold (coerced py_int key income_data (i + 4)) in Hf.
        rewrite Hya, Hzi in Hf. simpl in Hf. congruence.
    + injection Hg as <-. split.
      * destruct i as [|[|[|[|i]]]]; simpl; discriminate.
      * lia.
Qed.

End AlphaVantageFacts.

Section AlphaVantageScorer.

Variable py_int : string -> option Z.

Lemma av_short income_data ticker :
  (length income_data < 4)%nat ->
  calculate_alpha_vantage_fundamentals py_int income_data ticker
  = Some (no_scores, no_details).
Proof.
  intros H. unfold calculate_alpha_vantage_fundamentals.
  destruct (Nat.ltb_spec (length income_data) 4); [reflexivity | lia].
Qed.

(** What a returned result is made of. *)
Lemma av_inv income_data ticker s d :
  (4 <= length income_data)%nat ->
  calculate_alpha_vantage_fundamentals py_int income_data ticker
  = Some (s, d) ->
  extract py_int "totalRevenue" income_data = Some (d_sales d)
  /\ extract py_int "netIncome" income_data = Some (d_earnings d)
  /\ extract py_int "grossProfit" income_data = Some (d_gross_profit d)
  /\ growth_list py_int "totalRevenue" income_data (d_sales d)
     = Some (d_sales_growth d)
  /\ growth_list py_int "netIncome" income_data (d_earnings d)
     = Some (d_earnings_growth d)
  /\ d_gross_margin d = av_margin_values (d_sales d) (d_gross_profit d)
  /\ av_rule_of_40 py_int income_data (d_sales d) (d_gross_profit d)
     = Some (rule_of_40 s)
  /\ sales_growth s = growth_score sales_rule income_data (d_sales_growth d)
  /\ gross_margin s = av_margin_score (d_gross_margin d)
  /\ earnings s
     = growth_score earnings_rule income_data (d_earnings_growth d)
  /\ roe s = 0.
Proof.
  intros Hn. unfold calculate_alpha_vantage_fundamentals.
  destruct (Nat.ltb_spec (length income_data) 4); [lia |].
  destruct (extract py_int "totalRevenue" income_data) as [revs|] eqn:E1;
    [|discriminate]. simpl.
  destruct (extract py_int "netIncome" income_data) as [nis|] eqn:E2;
    [|discriminate]. simpl.
  destruct (extract py_int "grossProfit" income_data) as [gps|] eqn:E3;
    [|discriminate]. simpl.
  destruct (growth_list py_int "totalRevenue" income_data revs)
    as [sg|] eqn:E4; [|discriminate]. simpl.
  destruct (growth_list py_int "netIncome" income_data nis)
    as [eg|] eqn:E5; [|discriminate]. simpl.
  destruct (av_rule_of_40 py_int income_data revs gps)
    as [r40|] eqn:E6; [|discriminate]. simpl.
  intros [= <- <-]. simpl. repeat split; auto.
Qed.

Lemma int_or_zero_total (x : option string) :
  (forall s, x = Some s -> is_Some (py_int s)) ->
  is_Some (int_or_zero py_int x).
Proof.
  intros H. destruct x as [s|]; simpl; [|eauto].
  destruct (negb (String.eqb s "") && negb (String.eqb s "None")); eauto.
Qed.

(** The scorer returns whenever [int] reads every field it is given. *)
Lemma av_returns income_data ticker :
  (forall (q : report) (key s : string),
      q ∈ income_data -> q !! key = Some s -> is_Some (py_int s)) ->
  is_Some (calculate_alpha_vantage_fundamentals py_int income_data ticker).
Proof.
  intros Hall.
  assert (Hc : forall key (i : nat) (q : report),
             income_data !! i = Some q ->
             is_Some (int_or_zero py_int (q !! key))).
  { intros key i q Hq. apply int_or_zero_total. intros s Hs.
    apply (Hall q key s); [|exact Hs].
    apply list_elem_of_lookup. eauto. }
  assert (Hx : forall key, is_Some (extract py_int key income_data)).
  { intros key. unfold extract. apply mapM_is_Some, Forall_forall.
    intros q Hq. apply list_elem_of_lookup in Hq as [i Hi].
    apply lookup_take_Some in Hi as [Hi _]. eapply Hc, Hi. }
  unfold calculate_alpha_vantage_fundamentals.
  destruct (Nat.ltb_spec (length income_data) 4) as [|Hn]; [eauto|].
  destruct (Hx "totalRevenue") as [revs Hrevs].
  destruct (Hx "netIncome") as [nis Hnis].
  destruct (Hx "grossProfit") as [gps Hgps].
  rewrite Hrevs, Hnis, Hgps. simpl.
  assert (Hg : forall key zs,
             extract py_int key income_data = Some zs ->
             is_Some (growth_list py_int key income_data zs)).
  { intros key zs Hzs. unfold growth_list.
    destruct (Nat.leb_spec 12 (length income_data)) as [H12|H12].
    - apply mapM_is_Some, Forall_forall. intros i Hi.
      apply elem_of_seq in Hi. cbn.
      destruct (lookup_lt_is_Some_2 income_data (i + 4) ltac:(lia))
        as [q Hq].
      rewrite Hq. simpl. destruct (Hc key _ _ Hq) as [ya ->]. simpl. eauto.
    - destruct (Nat.leb_spec 8 (length income_data)) as [H8|H8]; [|eauto].
      apply mapM_is_Some, Forall_forall. intros i Hi.
      apply elem_of_seq in Hi. cbn.
      destruct (lookup_lt_is_Some_2 zs i) as [cur Hcur].
      { rewrite (extract_length _ _ _ _ Hzs). lia. }
      rewrite Hcur. simpl.
      destruct (lookup_lt_is_Some_2 income_data (i + 4) ltac:(lia))
        as [q Hq].
      rewrite Hq. simpl. destruct (Hc key _ _ Hq) as [ya ->]. simpl. eauto. }
  destruct (Hg _ _ Hrevs) as [sg ->]. simpl.
  destruct (Hg _ _ Hnis) as [eg ->]. simpl.
  assert (Hr : is_Some (av_rule_of_40 py_int income_data revs gps)).
  { unfold av_rule_of_40.
    destruct (Nat.leb_spec 5 (length income_data)) as [H5|H5]; [|eauto].
    destruct (lookup_lt_is_Some_2 revs 0) as [r0 ->].
    { rewrite (extract_length _ _ _ _ Hrevs). lia. }
    simpl.
    destruct (lookup_lt_is_Some_2 income_data 4 ltac:(lia)) as [q4 Hq4].
    rewrite Hq4. simpl.
    destruct (Hc "totalRevenue" _ _ Hq4) as [ya ->]. simpl.
    destruct (negb (ya =? 0)%Z); [|eauto].
    destruct (lookup_lt_is_Some_2 gps 0) as [g0 ->].
    { rewrite (extract_length _ _ _ _ Hgps). lia. }
    simpl. destruct (negb (r0 =? 0)%Z && negb (g0 =? 0)%Z); eauto. }
  destruct Hr as [r40 ->]. simpl. eauto.
Qed.

End AlphaVantageScorer.

(** ** C2: the year-over-year points of both paths *)

(** C2, as amended.  The primary path's calculator yields no entry for
    a series shorter than five and exactly four entries otherwise; entry
    [i] is [(series[i] - series[i+4]) / |series[i+4]| * 100] exactly when
    both values are present, neither is NaN and [series[i+4]] is not
    zero (a zero [series[i]] is not excluded), and null otherwise.  The
    secondary path yields eight entries from twelve reports on and four
    below (all null below eight reports); entry [i] is the same quotient
    exactly when both coerced values are non-zero. *)
Theorem growth_points_of_both_paths
        (values : list num) (py_int : string -> option Z)
        (income_data : list report) (ticker : string)
        (s : scores) (d : details) :
  calculate_alpha_vantage_fundamentals py_int income_data ticker
  = Some (s, d) ->
  let g := snd (check_growth_acceleration values) in
  let ag := d_sales_growth d in
  let n := length income_data in
  length g = (if (length values <? 5)%nat then 0%nat else 4%nat)
  /\ (forall (i : nat) (x : num),
         g !! i = Some (Some x) <->
         (5 <= length values)%nat /\ (i < 4)%nat
         /\ exists c b, values !! i = Some (Fin c)
                        /\ values !! (i + 4)%nat = Some (Fin b)
                        /\ ~ b == 0 /\ x = Fin (yoy_formula c b))
  /\ length ag = (if (n <? 4)%nat then 0%nat else offsets n)
  /\ (forall (i : nat) (y : Q),
         ag !! i = Some (Some y) <->
         (8 <= n)%nat /\ (i < offsets n)%nat
         /\ exists cur ya,
             coerced py_int "totalRevenue" income_data i = Some cur
             /\ coerced py_int "totalRevenue" income_data (i + 4) = Some ya
             /\ cur <> 0%Z /\ ya <> 0%Z /\ y = av_formula cur ya)
  /\ (forall cur ya,
         av_formula cur ya == yoy_formula (inject_Z cur) (inject_Z ya)).
Proof.
  intros Hcalc g ag n. subst g ag n.
  split; [apply growth_rates_length|].
  split.
  { intros i x. rewrite growth_rates_lookup, yoy_block_Some. reflexivity. }
  destruct (Nat.ltb_spec (length income_data) 4) as [Hn|Hn].
  - rewrite av_short in Hcalc by lia. injection Hcalc as <- <-.
    split; [reflexivity|]. split; [|apply av_formula_yoy].
    intros i y. simpl. rewrite lookup_nil. split; [discriminate | lia].
  - destruct (av_inv _ _ _ _ _ Hn Hcalc) as (Hx & _ & _ & Hg & _).
    split; [eapply growth_list_length, Hg|].
    split; [|apply av_formula_yoy].
    intros i y. rewrite (growth_list_lookup _ _ _ _ _ i y Hx Hg).
    split.
    + intros (H8 & Hi & cur & ya & Hc & Hya & Hy).
      apply av_yoy_Some in Hy as (? & ? & ?). eauto 10.
    + intros (H8 & Hi & cur & ya & Hc & Hya & ? & ? & ?).
      split; [exact H8|]. split; [exact Hi|]. exists cur, ya.
      rewrite av_yoy_Some. auto.
Qed.

Lemma growth_points_witness :
  calculate_alpha_vantage_fundamentals int_decimal eight_quarters "DEMO"
  = Some eight_result
  /\ length (snd (check_growth_acceleration eight_revenues)) = 4%nat
  /\ length (d_sales_growth (snd eight_result)) = 4%nat.
Proof.
  split; [vm_compute; reflexivity|].
  destruct (growth_points_of_both_paths eight_revenues int_decimal
              eight_quarters "DEMO" (fst eight_result) (snd eight_result))
    as (H1 & _ & H2 & _).
  - vm_compute. reflexivity.
  - split; [exact H1 | exact H2].
Defined.

(** C2 as stated fails: with a zero latest value the primary path
    computes -100 where the claim has null, and five reports with
    revenue give no point on the secondary path. *)
Lemma growth_points_counterexample :
  let values := map of_Z [0; 1; 1; 1; 100]%Z in
  snd (check_growth_acceleration values) !! 0%nat
  <> Some (claimed_yoy values 0)
  /\ (exists x, snd (check_growth_acceleration values) !! 0%nat
                = Some (Some (Fin x)) /\ x == - (100))
  /\ (length five_quarters = 5%nat
      /\ d_sales_growth
           (snd (default (no_scores, no_details)
                   (calculate_alpha_vantage_fundamentals int_decimal
                      five_quarters "DEMO")))
         = [None; None; None; None]).
Proof.
  split; [vm_compute; discriminate|].
  split; [|split; vm_compute; reflexivity].
  eexists. split; [vm_compute; reflexivity|]. vm_compute. reflexivity.
Qed.


(** ** C4: what the extractor does with missing fields *)

(** C4, as amended.  The extractor keeps the first eight reports and
    reads a metric that is absent, empty or the placeholder ['None'] as
    zero, never as null; any other text is read by [int]. *)
Theorem extractor_reads_missing_as_zero
        (py_int : string -> option Z) (key : string)
        (income_data : list report) (zs : list Z) :
  extract py_int key income_data = Some zs ->
  length zs = Nat.min 8 (length income_data)
  /\ (forall (i : nat) (q : report),
         income_data !! i = Some q -> (i < 8)%nat ->
         (reads_as_zero (q !! key) -> zs !! i = Some 0%Z)
         /\ (forall s, q !! key = Some s -> s <> "" -> s <> "None" ->
                       zs !! i = py_int s)).
Proof.
  intros Hx. split; [eapply extract_length, Hx|].
  intros i q Hq Hi. rewrite (extract_lookup _ _ _ _ i Hx).
  destruct (Nat.ltb_spec i 8); [|lia].
  unfold coerced. rewrite Hq. simpl. split.
  - apply int_or_zero_missing.
  - intros s -> H1 H2. apply int_or_zero_present; assumption.
Qed.

Lemma extractor_witness :
  extract int_decimal "totalRevenue" eight_quarters
  = Some [120; 100; 90; 80; 110; 95; 85; 75]%Z
  /\ length [120; 100; 90; 80; 110; 95; 85; 75]%Z
     = Nat.min 8 (length eight_quarters).
Proof.
  split; [vm_compute; reflexivity|].
  apply (extractor_reads_missing_as_zero int_decimal "totalRevenue"
           eight_quarters [120; 100; 90; 80; 110; 95; 85; 75]%Z).
  vm_compute. reflexivity.
Defined.

(** C4 as stated fails: a placeholder, an empty and an absent metric
    all come out as the number zero. *)
Lemma extractor_counterexample :
  placeholder_quarter !! "totalRevenue" = Some "None"
  /\ placeholder_quarter !! "netIncome" = None
  /\ extract int_decimal "totalRevenue" [placeholder_quarter] = Some [0%Z]
  /\ extract int_decimal "grossProfit" [placeholder_quarter] = Some [0%Z]
  /\ extract int_decimal "netIncome" [placeholder_quarter] = Some [0%Z].
Proof. repeat split; vm_compute; reflexivity. Qed.


(** ** C5: the sales-growth score *)

Lemma half_step_proper (s s' : Q) : s == s' -> half_step s -> half_step s'.
Proof. unfold half_step. intros E. rewrite E. tauto. Qed.

Lemma sales_score_ok_proper (latest prev : option Q) (s s' : Q) :
  s == s' -> sales_score_ok latest prev s -> sales_score_ok latest prev s'.
Proof.
  unfold sales_score_ok, half_step. intros E. rewrite E. tauto.
Qed.

Lemma additive_score_ok_proper (thr : Q) (latest prev : option Q) (s s' : Q) :
  s == s' ->
  additive_score_ok thr latest prev s -> additive_score_ok thr latest prev s'.
Proof.
  unfold additive_score_ok, half_step. intros E. rewrite E. tauto.
Qed.

(** Case analysis on the comparisons of a scoring rule. *)
Ltac by_comparisons :=
  repeat match goal with
         | |- context [gtb ?x ?y] =>
             let H := fresh "H" in
             destruct (gtb x y) eqn:H;
             [apply gtb_true in H | apply gtb_false in H]
         | |- context [geb ?x ?y] =>
             let H := fresh "H" in
             destruct (geb x y) eqn:H;
             [apply geb_true in H | apply geb_false in H]
         end.

Lemma ex_some {A} (x : A) (P : A -> Prop) :
  (exists y, Some x = Some y /\ P y) <-> P x.
Proof.
  split; [intros (y & [= <-] & H); exact H | intros H; exists x; auto].
Qed.

Lemma accelerating_none (prev : option Q) : ~ accelerating None prev.
Proof. intros (l & p & H & _). discriminate. Qed.

(** The half point for acceleration, as both paths compute it. *)
Lemma acceleration_part (l : Q) (prev : option Q) :
  let a := match prev with
           | Some p => if gtb l p then 0.5 else 0
           | None => 0
           end in
  (a = 0.5 /\ accelerating (Some l) prev)
  \/ (a = 0 /\ ~ accelerating (Some l) prev).
Proof.
  destruct prev as [p|]; simpl.
  - destruct (gtb l p) eqn:H.
    + apply gtb_true in H. left. split; [reflexivity|]. exists l, p. auto.
    + apply gtb_false in H. right. split; [reflexivity|].
      intros (l' & p' & [= <-] & [= <-] & H'). lra.
  - right. split; [reflexivity|].
    intros (l' & p' & _ & H & _). discriminate.
Qed.

Ltac close_score A :=
  unfold half_step; rewrite ?ex_some;
  clearbody A; intuition (try discriminate; try lra).

Lemma sales_rule_ok (latest prev : option Q) :
  sales_score_ok latest prev (sales_rule latest prev).
Proof.
  unfold sales_score_ok, sales_rule.
  destruct latest as [l|].
  - set (A := accelerating (Some l) prev).
    destruct (acceleration_part l prev) as [[-> HA]|[-> HA]];
      fold A in HA; by_comparisons; close_score A.
  - pose proof (accelerating_none prev) as HA.
    set (A := accelerating None prev) in *.
    unfold half_step. clearbody A.
    repeat split; try (intros (l & H & _); discriminate); auto; try lra.
Qed.

Lemma additive_rule_ok (thr : Q) (latest prev : option Q) :
  additive_score_ok thr latest prev (additive_rule thr latest prev).
Proof.
  unfold additive_score_ok, additive_rule.
  destruct latest as [l|].
  - set (A := accelerating (Some l) prev).
    destruct (acceleration_part l prev) as [[-> HA]|[-> HA]];
      fold A in HA; by_comparisons; close_score A.
  - pose proof (accelerating_none prev) as HA.
    set (A := accelerating None prev) in *.
    unfold half_step. clearbody A.
    repeat split; try (intros (l & H & _); discriminate); auto; try lra.
Qed.

(** The primary path's sales score is the rule applied to the first two
    growth rates it reports. *)
Lemma yahoo_sales_score (inc : gmap string (list num)) :
  let g := snd (Yahoo.sales_block inc) in
  fst (Yahoo.sales_block inc) == sales_rule (nentry g 0) (nentry g 1).
Proof.
  unfold Yahoo.sales_block.
  destruct (inc !! "Total Revenue") as [row|]; [|reflexivity].
  set (values := take 8 row).
  pose proof (growth_rates_short values) as Hs.
  pose proof (growth_rates_long values) as Hl.
  pose proof (accelerating_long values) as Ha.
  destruct (check_growth_acceleration values) as [acc g] eqn:E.
  simpl in *.
  destruct (Nat.ltb_spec (length values) 5) as [H|H].
  - injection (Hs H) as -> ->. reflexivity.
  - rewrite (Hl H), (Ha H). unfold nentry, first. simpl.
    destruct (yoy_block values 0) as [[|l]|],
             (yoy_block values 1) as [[|p]|];
      simpl; unfold sales_rule; by_comparisons; lra.
Qed.

(** C5, as amended.  On both paths the sales-growth score is 0, 0.5 or
    1; it is 1 exactly when the latest rate exceeds 30, or exceeds 15
    while accelerating; it is 0 exactly when there is no latest rate, or
    the latest rate is at most 15 and not accelerating. *)
Theorem sales_growth_score_of_both_paths
        (inc : gmap string (list num)) (py_int : string -> option Z)
        (income_data : list report) (ticker : string)
        (s : scores) (d : details) :
  calculate_alpha_vantage_fundamentals py_int income_data ticker
  = Some (s, d) ->
  let g := snd (Yahoo.sales_block inc) in
  sales_score_ok (nentry g 0) (nentry g 1) (fst (Yahoo.sales_block inc))
  /\ sales_score_ok (entry (d_sales_growth d) 0) (entry (d_sales_growth d) 1)
                    (sales_growth s).
Proof.
  intros Hcalc g. split.
  - eapply sales_score_ok_proper;
      [symmetry; apply yahoo_sales_score | apply sales_rule_ok].
  - destruct (Nat.ltb_spec (length income_data) 4) as [Hn|Hn].
    + rewrite av_short in Hcalc by lia. injection Hcalc as <- <-.
      apply (sales_rule_ok None None).
    + destruct (av_inv _ _ _ _ _ Hn Hcalc)
        as (_ & _ & _ & Hg & _ & _ & _ & -> & _).
      unfold growth_score, entry.
      destruct (Nat.leb_spec 8 (length income_data)) as [H8|H8].
      * apply sales_rule_ok.
      * unfold growth_list in Hg.
        destruct (Nat.leb_spec 12 (length income_data)); [lia|].
        destruct (Nat.leb_spec 8 (length income_data)); [lia|].
        injection Hg as <-. apply (sales_rule_ok None None).
Qed.

Lemma sales_growth_score_witness :
  calculate_alpha_vantage_fundamentals int_decimal eight_quarters "DEMO"
  = Some eight_result
  /\ sales_score_ok (entry (d_sales_growth (snd eight_result)) 0)
                    (entry (d_sales_growth (snd eight_result)) 1)
                    (sales_growth (fst eight_result)).
Proof.
  split; [vm_compute; reflexivity|].
  apply (sales_growth_score_of_both_paths accelerating_income int_decimal
           eight_quarters "DEMO" (fst eight_result) (snd eight_result)).
  vm_compute. reflexivity.
Defined.

(** C5 as stated fails: a latest rate of 20 after 10 scores 1 without
    exceeding 30. *)
Lemma sales_growth_score_counterexample :
  exists l p,
    snd (Yahoo.sales_block accelerating_income) !! 0%nat = Some (Some (Fin l))
    /\ snd (Yahoo.sales_block accelerating_income) !! 1%nat
       = Some (Some (Fin p))
    /\ l == 20 /\ p == 10 /\ ~ 30 < l
    /\ fst (Yahoo.sales_block accelerating_income) == 1.
Proof.
  eexists. eexists. split; [vm_compute; reflexivity|].
  split; [vm_compute; reflexivity|].
  repeat split; vm_compute; congruence.
Qed.


(** ** C6: gross margins and their score *)

Lemma ne_zero_false (r : num) : ne r (Fin 0) = false <-> is_zero r.
Proof.
  unfold is_zero. destruct r as [|q]; simpl.
  - split; [discriminate | intros (q & H & _); discriminate].
  - rewrite neb_false. split.
    + intros H. exists q. auto.
    + intros (q' & [= <-] & H). exact H.
Qed.

Lemma margin_value (g r : Q) :
  ~ r == 0 -> mul (div (Fin g) (Fin r)) (Fin 100) = Fin (g / r * 100).
Proof.
  intros H. unfold mul, div, lift2.
  replace (Qeq_bool r 0) with false; [reflexivity|].
  symmetry. apply not_true_iff_false. rewrite Qeq_bool_iff. exact H.
Qed.

Lemma yahoo_margin_lookup (inc : gmap string (list num))
      (rev_row gp_row : list num) (i : nat) (r g : num) :
  inc !! "Total Revenue" = Some rev_row ->
  inc !! "Gross Profit" = Some gp_row ->
  length rev_row = length gp_row ->
  (i < 4)%nat -> rev_row !! i = Some r -> gp_row !! i = Some g ->
  Yahoo.gross_margin_values inc !! i
  = Some (if ne r (Fin 0) then Some (mul (div g r) (Fin 100)) else None).
Proof.
  intros Hr Hg Hlen Hi Hri Hgi. unfold Yahoo.gross_margin_values.
  rewrite Hr, Hg. rewrite !length_take, Hlen, Nat.eqb_refl.
  rewrite lookup_zip_with, !lookup_take_lt by lia.
  rewrite Hri, Hgi. reflexivity.
Qed.

Lemma yahoo_margin_length (inc : gmap string (list num))
      (rev_row gp_row : list num) :
  inc !! "Total Revenue" = Some rev_row ->
  inc !! "Gross Profit" = Some gp_row ->
  length rev_row = length gp_row ->
  length (Yahoo.gross_margin_values inc) = Nat.min 4 (length rev_row).
Proof.
  intros Hr Hg Hlen. unfold Yahoo.gross_margin_values.
  rewrite Hr, Hg. rewrite !length_take, Hlen, Nat.eqb_refl.
  rewrite length_zip_with, !length_take. lia.
Qed.

Lemma yahoo_margin_rule (a b : option num) :
  Yahoo.margin_rule a b
  == additive_rule 40 (a ≫= fin_val) (b ≫= fin_val).
Proof.
  unfold Yahoo.margin_rule, additive_rule.
  destruct a as [[|l]|], b as [[|p]|]; simpl; by_comparisons; lra.
Qed.

Lemma yahoo_margin_score (inc : gmap string (list num)) :
  (2 <= length (Yahoo.gross_margin_values inc))%nat ->
  Yahoo.margin_block inc
  == additive_rule 40 (nentry (Yahoo.gross_margin_values inc) 0)
                   (nentry (Yahoo.gross_margin_values inc) 1).
Proof.
  unfold Yahoo.margin_block, nentry.
  destruct (Yahoo.gross_margin_values inc) as [|a [|b rest]]; simpl;
    try lia.
  intros _. apply yahoo_margin_rule.
Qed.

Lemma av_margin_lookup (revenues gross_profits : list Z)
      (i : nat) (rev gp : Z) :
  (i < 8)%nat -> revenues !! i = Some rev -> gross_profits !! i = Some gp ->
  av_margin_values revenues gross_profits !! i
  = Some (if negb (rev =? 0)%Z && negb (gp =? 0)%Z
          then Some (inject_Z gp / inject_Z rev * 100) else None).
Proof.
  intros Hi Hr Hg. unfold av_margin_values.
  rewrite list_lookup_imap, lookup_take_lt by lia.
  rewrite Hg. simpl. rewrite Hr. reflexivity.
Qed.

Lemma av_margin_score_rule (margins : list (option Q)) :
  (2 <= length margins)%nat ->
  av_margin_score margins
  = additive_rule 40 (entry margins 0) (entry margins 1).
Proof.
  unfold av_margin_score, entry.
  destruct margins as [|a [|b rest]]; simpl; try lia. reflexivity.
Qed.

Lemma av_margin_length (revenues gross_profits : list Z) :
  length (av_margin_values revenues gross_profits)
  = Nat.min 8 (length gross_profits).
Proof.
  unfold av_margin_values. rewrite length_imap, length_take. reflexivity.
Qed.

(** C6, as amended.  On the primary path the margin of a quarter is
    [gross_profit / revenue * 100] and is null exactly when the revenue
    is zero; on the secondary path it is null exactly when the revenue or
    the gross profit is zero.  On both paths the score adds one half when
    the latest margin exceeds the previous one and one half when it
    exceeds 40; a margin of 50% after 35% scores 1 on both. *)
Theorem gross_margin_of_both_paths
        (inc : gmap string (list num)) (rev_row gp_row : list num)
        (py_int : string -> option Z) (income_data : list report)
        (ticker : string) (s : scores) (d : details) :
  inc !! "Total Revenue" = Some rev_row ->
  inc !! "Gross Profit" = Some gp_row ->
  length rev_row = length gp_row ->
  (2 <= length rev_row)%nat ->
  calculate_alpha_vantage_fundamentals py_int income_data ticker
  = Some (s, d) ->
  let m := Yahoo.gross_margin_values inc in
  let am := d_gross_margin d in
  (forall (i : nat) (r g : num),
      (i < 4)%nat -> rev_row !! i = Some r -> gp_row !! i = Some g ->
      (m !! i = Some None <-> is_zero r)
      /\ (forall qr qg, r = Fin qr -> g = Fin qg -> ~ qr == 0 ->
                        m !! i = Some (Some (Fin (qg / qr * 100)))))
  /\ additive_score_ok 40 (nentry m 0) (nentry m 1) (Yahoo.margin_block inc)
  /\ (forall (i : nat) (rev gp : Z),
         d_sales d !! i = Some rev -> d_gross_profit d !! i = Some gp ->
         (am !! i = Some None <-> rev = 0%Z \/ gp = 0%Z)
         /\ (rev <> 0%Z -> gp <> 0%Z ->
             am !! i = Some (Some (inject_Z gp / inject_Z rev * 100))))
  /\ additive_score_ok 40 (entry am 0) (entry am 1) (gross_margin s)
  /\ Yahoo.margin_block margin_income == 1
  /\ gross_margin (fst (av_sample margin_quarters)) == 1.
Proof.
  intros Hr Hg Hlen H2 Hcalc m am. subst m am.
  split.
  { intros i r g Hi Hri Hgi.
    rewrite (yahoo_margin_lookup inc rev_row gp_row i r g) by assumption.
    split.
    - rewrite <- ne_zero_false. destruct (ne r (Fin 0)); split; congruence.
    - intros qr qg -> -> Hnz. unfold ne.
      replace (neb qr 0) with true by (symmetry; apply neb_true, Hnz).
      rewrite margin_value by exact Hnz. reflexivity. }
  split.
  { eapply additive_score_ok_proper; [|apply additive_rule_ok].
    symmetry. apply yahoo_margin_score.
    rewrite (yahoo_margin_length inc rev_row gp_row) by assumption. lia. }
  assert (Hav : forall (i : nat) (rev gp : Z),
             d_sales d !! i = Some rev -> d_gross_profit d !! i = Some gp ->
             (i < 8)%nat
             /\ d_gross_margin d = av_margin_values (d_sales d)
                                     (d_gross_profit d)).
  { intros i rev gp Hri Hgi.
    destruct (Nat.ltb_spec (length income_data) 4) as [Hn|Hn].
    - rewrite av_short in Hcalc by lia. injection Hcalc as <- <-.
      simpl in Hri. rewrite lookup_nil in Hri. discriminate.
    - destruct (av_inv _ _ _ _ _ Hn Hcalc) as (Hx & _ & _ & _ & _ & Hm & _).
      split; [|exact Hm].
      apply lookup_lt_Some in Hri.
      rewrite (extract_length _ _ _ _ Hx) in Hri. lia. }
  split.
  { intros i rev gp Hri Hgi. destruct (Hav i rev gp Hri Hgi) as [Hi ->].
    rewrite (av_margin_lookup _ _ i rev gp Hi Hri Hgi).
    destruct (Z.eqb_spec rev 0), (Z.eqb_spec gp 0); simpl;
      intuition congruence. }
  split.
  { destruct (Nat.ltb_spec (length income_data) 4) as [Hn|Hn].
    - rewrite av_short in Hcalc by lia. injection Hcalc as <- <-.
      apply (additive_rule_ok 40 None None).
    - destruct (av_inv _ _ _ _ _ Hn Hcalc)
        as (_ & _ & Hx & _ & _ & Hm & _ & _ & -> & _).
      rewrite av_margin_score_rule; [apply additive_rule_ok|].
      rewrite Hm, av_margin_length, (extract_length _ _ _ _ Hx). lia. }
  split; vm_compute; reflexivity.
Qed.

Lemma gross_margin_witness :
  margin_income !! "Total Revenue" = Some (map of_Z [100; 100; 100; 100]%Z)
  /\ margin_income !! "Gross Profit" = Some (map of_Z [50; 35; 30; 30]%Z)
  /\ calculate_alpha_vantage_fundamentals int_decimal margin_quarters "DEMO"
     = Some (av_sample margin_quarters)
  /\ additive_score_ok 40
       (nentry (Yahoo.gross_margin_values margin_income) 0)
       (nentry (Yahoo.gross_margin_values margin_income) 1)
       (Yahoo.margin_block margin_income).
Proof.
  split; [vm_compute; reflexivity|].
  split; [vm_compute; reflexivity|].
  split; [vm_compute; reflexivity|].
  destruct (gross_margin_of_both_paths margin_income
              (map of_Z [100; 100; 100; 100]%Z)
              (map of_Z [50; 35; 30; 30]%Z)
              int_decimal margin_quarters "DEMO"
              (fst (av_sample margin_quarters))
              (snd (av_sample margin_quarters)))
    as (_ & H & _).
  - vm_compute. reflexivity.
  - vm_compute. reflexivity.
  - reflexivity.
  - simpl. lia.
  - vm_compute. reflexivity.
  - exact H.
Defined.

(** C6 as stated fails: on the secondary path a quarter with revenue 100
    and no gross profit has a null margin although its revenue is not
    zero. *)
Lemma gross_margin_counterexample :
  d_sales (snd (av_sample no_profit_quarters)) !! 0%nat = Some 100%Z
  /\ d_gross_profit (snd (av_sample no_profit_quarters)) !! 0%nat = Some 0%Z
  /\ d_gross_margin (snd (av_sample no_profit_quarters)) !! 0%nat = Some None.
Proof. repeat split; vm_compute; reflexivity. Qed.


(** ** C1: the Rule of 40 *)

(** On the secondary path the score compares the latest quarter with the
    quarter four reports earlier. *)
Lemma av_rule_of_40_year_over_year
      (py_int : string -> option Z) (income_data : list report)
      (ticker : string) (s : scores) (d : details) :
  (5 <= length income_data)%nat ->
  calculate_alpha_vantage_fundamentals py_int income_data ticker
  = Some (s, d) ->
  exists rev0 ya gp0,
    coerced py_int "totalRevenue" income_data 0 = Some rev0
    /\ coerced py_int "totalRevenue" income_data 4 = Some ya
    /\ coerced py_int "grossProfit" income_data 0 = Some gp0
    /\ binary (rule_of_40 s)
    /\ (rule_of_40 s == 1 <->
        ya <> 0%Z /\ rev0 <> 0%Z /\ gp0 <> 0%Z
        /\ 40 <= av_formula rev0 ya + inject_Z gp0 / inject_Z rev0 * 100).
Proof.
  intros Hn Hcalc.
  assert (H4 : (4 <= length income_data)%nat) by lia.
  destruct (av_inv _ _ _ _ _ H4 Hcalc)
    as (Hx & _ & Hgx & _ & _ & _ & Hr & _).
  pose proof (extract_lookup _ _ _ _ 0 Hx) as Hr0.
  pose proof (extract_lookup _ _ _ _ 0 Hgx) as Hg0.
  simpl in Hr0, Hg0. unfold av_rule_of_40 in Hr.
  destruct (Nat.leb_spec 5 (length income_data)); [|lia].
  rewrite Hr0, Hg0 in Hr.
  destruct (lookup_lt_is_Some_2 (d_gross_profit d) 0) as [gp0 Hgp0].
  { rewrite (extract_length _ _ _ _ Hgx). lia. }
  rewrite Hgp0 in Hg0. rewrite <- Hg0 in *. clear Hg0.
  destruct (coerced py_int "totalRevenue" income_data 0) as [rev0|];
    [|discriminate]. simpl in Hr.
  unfold coerced at 1.
  destruct (income_data !! 4%nat) as [q4|]; [|discriminate]. simpl in Hr.
  simpl.
  destruct (int_or_zero py_int (q4 !! "totalRevenue")) as [ya|];
    [|discriminate]. simpl in Hr.
  exists rev0, ya, gp0. fold (av_formula rev0 ya) in Hr.
  do 3 (split; [reflexivity|]).
  destruct (Z.eqb_spec ya 0), (Z.eqb_spec rev0 0), (Z.eqb_spec gp0 0);
    simpl in Hr; revert Hr; by_comparisons; intros [= <-]; unfold binary;
    intuition (try lra; try lia).
Qed.

(** On the primary path the score compares the latest quarter with the
    quarter just before it. *)
Lemma yahoo_rule_of_40_previous_quarter
      (inc : gmap string (list num)) (rev_row gp_row : list num)
      (r0 r1 g0 : Q) :
  inc !! "Total Revenue" = Some rev_row ->
  inc !! "Gross Profit" = Some gp_row ->
  rev_row !! 0%nat = Some (Fin r0) -> rev_row !! 1%nat = Some (Fin r1) ->
  gp_row !! 0%nat = Some (Fin g0) ->
  ~ r0 == 0 -> ~ r1 == 0 ->
  Yahoo.rule_of_40_block inc == 1 <->
  40 <= yoy_formula r0 r1 + g0 / r0 * 100.
Proof.
  intros Hr Hg H0 H1 Hg0 Hn0 Hn1.
  unfold Yahoo.rule_of_40_block, Yahoo.profit_margin_pct,
    Yahoo.revenue_growth, first.
  rewrite Hr, Hg.
  assert (E2 : take 2 rev_row = [Fin r0; Fin r1]).
  { destruct rev_row as [|a [|b rest]]; try discriminate.
    simpl in H0, H1. injection H0 as ->. injection H1 as ->.
    simpl. rewrite take_0. reflexivity. }
  rewrite E2, Hg0, H0.
  cbn [mbind option_bind]. unfold ne.
  replace (neb r1 0) with true by (symmetry; apply neb_true, Hn1).
  replace (neb r0 0) with true by (symmetry; apply neb_true, Hn0).
  rewrite yoy_value, margin_value by assumption.
  unfold ge, add, lift2. by_comparisons; intuition lra.
Qed.

(** C1 fails on the primary path.  With revenue 100 now and a year ago
    but 50 last quarter, and gross profit a tenth of revenue, the
    year-over-year sum is 10, yet the primary path scores 1 (from the
    quarter-over-quarter growth of 100); the secondary path scores 0 on
    the same quarters. *)
Theorem rule_of_40_primary_takes_previous_quarter :
  rule_of_40 (Yahoo.calculate_fundamental_scores (Some flat_year_data)) == 1
  /\ yoy_formula 100 100 + 10 / 100 * 100 == 10
  /\ ~ 40 <= yoy_formula 100 100 + 10 / 100 * 100
  /\ 40 <= yoy_formula 100 50 + 10 / 100 * 100
  /\ rule_of_40 (fst (av_sample flat_year_quarters)) == 0.
Proof.
  repeat split; try (vm_compute; reflexivity); vm_compute; congruence.
Qed.


(** ** C7: return on equity *)

Lemma yahoo_roe_binary (d : fund_data) : binary (Yahoo.roe_block d).
Proof.
  unfold Yahoo.roe_block, binary.
  destruct (info d !! "returnOnEquity") as [r|].
  - destruct (ge _ _); [right | left]; reflexivity.
  - destruct (Yahoo.roe_quarters _ _) as [|[q0|] rest];
      try (left; reflexivity).
    destruct (ge _ _); [right | left]; reflexivity.
Qed.









(** ** C8: the aggregation *)

Lemma half_step_bounds (s : Q) : half_step s -> 0 <= s <= 1.
Proof. unfold half_step. intros [H|[H|H]]; rewrite H; split; lra. Qed.

Lemma binary_bounds (s : Q) : binary s -> 0 <= s <= 1.
Proof. unfold binary. intros [H|H]; rewrite H; split; lra. Qed.

Lemma tech_bounds (t : tech_scores) :
  valid_tech t -> 0 <= total_tech_score t <= 6.
Proof.
  intros (H1 & H2 & H3 & H4 & H5 & H6).
  apply half_step_bounds in H1, H2, H6. apply binary_bounds in H3, H4, H5.
  unfold total_tech_score. lra.
Qed.

Lemma fund_bounds (f : scores) : valid_fund f -> 0 <= sum_scores f <= 5.
Proof.
  intros (H1 & H2 & H3 & H4 & H5).
  apply half_step_bounds in H1, H2, H3. apply binary_bounds in H4, H5.
  unfold sum_scores. lra.
Qed.

Lemma remarks_bounds (top_rated new_dev : bool) :
  0 <= total_remarks_score top_rated new_dev <= 2.
Proof.
  unfold total_remarks_score, flag_score.
  destruct top_rated, new_dev; split; lra.
Qed.

Lemma percentage_bounds (total : Q) :
  0 <= total <= 13 -> 0 <= percentage total <= 100.
Proof.
  intros H. unfold percentage, max_score.
  assert (E : total / 13 * 100 == total * (100 # 13)) by (field; lra).
  rewrite E. lra.
Qed.

Lemma rating_bands (pct : Q) :
  (rating_of pct = Excellent <-> 75 <= pct)
  /\ (rating_of pct = Good <-> 60 <= pct < 75)
  /\ (rating_of pct = Average <-> 45 <= pct < 60)
  /\ (rating_of pct = Below_Average <-> 30 <= pct < 45)
  /\ (rating_of pct = Poor <-> pct < 30).
Proof.
  unfold rating_of. by_comparisons;
    repeat split; try discriminate; try reflexivity; intros; try lra;
    match goal with H : _ /\ _ |- _ => destruct H; lra end.
Qed.

(** The sub-scores the scorers compute lie in their declared domains. *)

Ltac in_steps :=
  unfold half_step, binary;
  first [ left; lra | right; left; lra | right; right; lra | right; lra ].

Lemma half_step_zero : half_step 0.
Proof. in_steps. Qed.

Lemma binary_zero : binary 0.
Proof. in_steps. Qed.

Lemma sales_score_ok_half_step (latest prev : option Q) (s : Q) :
  sales_score_ok latest prev s -> half_step s.
Proof. intros [H _]. exact H. Qed.

Lemma additive_score_ok_half_step (thr : Q) (latest prev : option Q) (s : Q) :
  additive_score_ok thr latest prev s -> half_step s.
Proof. intros [H _]. exact H. Qed.

Lemma yahoo_earnings_half_step (inc : gmap string (list num)) :
  half_step (fst (Yahoo.earnings_block inc)).
Proof.
  unfold Yahoo.earnings_block.
  destruct (inc !! "Net Income") as [row|]; [|apply half_step_zero].
  destruct (check_growth_acceleration (take 8 row)) as [acc g].
  simpl. destruct (default None (first g)) as [y|]; [|apply half_step_zero].
  destruct acc, (gt y (Fin 20)); in_steps.
Qed.

Lemma yahoo_rule_of_40_binary (inc : gmap string (list num)) :
  binary (Yahoo.rule_of_40_block inc).
Proof.
  unfold Yahoo.rule_of_40_block.
  destruct (Yahoo.profit_margin_pct inc) as [[m|]|];
    destruct (Yahoo.revenue_growth inc) as [g|]; try apply binary_zero.
  destruct (ge (add g m) (Fin 40)); in_steps.
Qed.

Lemma yahoo_scores_valid (fd : option fund_data) :
  valid_fund (Yahoo.calculate_fundamental_scores fd).
Proof.
  destruct fd as [d|]; simpl.
  - split.
    { eapply sales_score_ok_half_step, sales_score_ok_proper;
        [symmetry; apply yahoo_sales_score | apply sales_rule_ok]. }
    split.
    { unfold Yahoo.margin_block.
      destruct (Yahoo.gross_margin_values (income d)) as [|a [|b rest]];
        try apply half_step_zero.
      eapply half_step_proper; [symmetry; apply yahoo_margin_rule|].
      eapply additive_score_ok_half_step, additive_rule_ok. }
    split; [apply yahoo_earnings_half_step|].
    split; [apply yahoo_rule_of_40_binary | apply yahoo_roe_binary].
  - repeat split; first [apply half_step_zero | apply binary_zero].
Qed.

Lemma growth_score_half_step (rule : option Q -> option Q -> Q)
      (income_data : list report) (g : list (option Q)) :
  (forall l p, half_step (rule l p)) ->
  half_step (growth_score rule income_data g).
Proof.
  intros H. unfold growth_score.
  destruct (8 <=? length income_data)%nat; [apply H | apply half_step_zero].
Qed.

Lemma av_scores_valid (py_int : string -> option Z)
      (income_data : list report) (ticker : string)
      (s : scores) (d : details) :
  calculate_alpha_vantage_fundamentals py_int income_data ticker
  = Some (s, d) ->
  valid_fund s.
Proof.
  intros Hcalc.
  destruct (Nat.ltb_spec (length income_data) 4) as [Hn|Hn].
  - rewrite av_short in Hcalc by lia. injection Hcalc as <- <-.
    repeat split; first [apply half_step_zero | apply binary_zero].
  - destruct (av_inv _ _ _ _ _ Hn Hcalc)
      as (_ & _ & _ & _ & _ & _ & Hr & Hs & Hm & He & Hroe).
    unfold valid_fund. rewrite Hs, Hm, He, Hroe.
    split.
    { apply growth_score_half_step. intros l p.
      eapply sales_score_ok_half_step, sales_rule_ok. }
    split.
    { unfold av_margin_score.
      destruct (d_gross_margin d) as [|a [|b rest]];
        try apply half_step_zero.
      apply (additive_score_ok_half_step 40 a b), additive_rule_ok. }
    split.
    { apply growth_score_half_step. intros l p.
      apply (additive_score_ok_half_step 20 l p), additive_rule_ok. }
    split; [|apply binary_zero].
    unfold av_rule_of_40 in Hr.
    destruct (5 <=? length income_data)%nat;
      [|injection Hr as <-; apply binary_zero].
    destruct (d_sales d !! 0%nat) as [r0|]; [|discriminate]. simpl in Hr.
    destruct (income_data !! 4%nat) as [q4|]; [|discriminate]. simpl in Hr.
    destruct (int_or_zero py_int (q4 !! "totalRevenue")) as [ya|];
      [|discriminate]. simpl in Hr.
    destruct (negb (ya =? 0)%Z); [|injection Hr as <-; apply binary_zero].
    destruct (d_gross_profit d !! 0%nat) as [g0|]; [|discriminate].
    simpl in Hr.
    destruct (negb (r0 =? 0)%Z && negb (g0 =? 0)%Z);
      [|injection Hr as <-; apply binary_zero].
    injection Hr as <-. destruct (geb _ 40); in_steps.
Qed.

Lemma roe_supplement_valid (yahoo_info : option (gmap string num))
      (s : scores) :
  valid_fund s -> valid_fund (roe_supplement yahoo_info s).
Proof.
  intros (H1 & H2 & H3 & H4 & H5). unfold roe_supplement.
  destruct yahoo_info as [inf|]; [|repeat split; assumption].
  destruct (inf !! "returnOnEquity") as [r|]; [|repeat split; assumption].
  destruct (ge _ (Fin 15)); repeat split; try assumption. simpl. in_steps.
Qed.

Lemma stage_score_half_step (price ma_50 ma_150 ma_200 : num) :
  half_step (snd (calculate_stage price ma_50 ma_150 ma_200)).
Proof.
  unfold calculate_stage.
  repeat match goal with
         | |- context [if ?b then _ else _] => destruct b
         end; simpl; in_steps.
Qed.

Lemma pulse_score_half_step (market_pulse : string) :
  half_step (pulse_score market_pulse).
Proof.
  unfold pulse_score.
  repeat match goal with
         | |- context [if ?b then _ else _] => destruct b
         end; in_steps.
Qed.

Lemma atr_score_binary (atr_percentile : Z) : binary (atr_score atr_percentile).
Proof. unfold atr_score. destruct (50 <? atr_percentile)%Z; in_steps. Qed.

Lemma key_bar_score_half_step (df : option ref) (kb : option row)
      (s s' : store) (q : Q) :
  calculate_key_bar_score df kb s = (Some q, s') -> half_step q.
Proof.
  unfold calculate_key_bar_score.
  destruct df as [r|], kb as [k|];
    try (intros [= <- _]; apply half_step_zero).
  unfold mbind, M_bind, bind.
  destruct (get_col r "Close" s) as [[close|] s1]; [|discriminate].
  destruct (last close) as [p|]; [|discriminate].
  destruct (row_cells k !! "Close") as [[c|b]|]; try discriminate.
  intros [= <- _]. destruct (le p _); in_steps.
Qed.

(** C8.  For sub-scores within their declared domains the total is the
    sum of the technical, fundamental and remarks scores, the remarks
    score is the sum of two binary flags and at most 2, the percentage is
    [total / 13 * 100] and lies in [0, 100], and the rating is read off
    the bands 75, 60, 45 and 30 from the top. *)
Theorem summary_of_valid_scores
        (t : tech_scores) (f : scores) (top_rated new_dev : bool) :
  valid_tech t -> valid_fund f ->
  let total := fst (fst (summary t f top_rated new_dev)) in
  let pct := snd (fst (summary t f top_rated new_dev)) in
  let band := snd (summary t f top_rated new_dev) in
  let remarks := total_remarks_score top_rated new_dev in
  total == total_tech_score t + sum_scores f + remarks
  /\ remarks == flag_score top_rated + flag_score new_dev
  /\ binary (flag_score top_rated) /\ binary (flag_score new_dev)
  /\ remarks <= 2
  /\ 0 <= total <= 13
  /\ pct == total / 13 * 100
  /\ 0 <= pct <= 100
  /\ (band = Excellent <-> 75 <= pct)
  /\ (band = Good <-> 60 <= pct < 75)
  /\ (band = Average <-> 45 <= pct < 60)
  /\ (band = Below_Average <-> 30 <= pct < 45)
  /\ (band = Poor <-> pct < 30).
Proof.
  intros Ht Hf. cbn [summary fst snd].
  pose proof (tech_bounds t Ht) as Bt.
  pose proof (fund_bounds f Hf) as Bf.
  pose proof (remarks_bounds top_rated new_dev) as Br.
  assert (B : 0 <= total_score (total_tech_score t) (sum_scores f)
                     (total_remarks_score top_rated new_dev) <= 13)
    by (unfold total_score; lra).
  split; [reflexivity|]. split; [reflexivity|].
  split; [destruct top_rated; [right | left]; reflexivity|].
  split; [destruct new_dev; [right | left]; reflexivity|].
  split; [lra|]. split; [exact B|]. split; [reflexivity|].
  split; [apply percentage_bounds, B|].
  apply rating_bands.
Qed.

Lemma summary_witness :
  valid_tech sample_tech /\ valid_fund sample_fund
  /\ 0 <= snd (fst (summary sample_tech sample_fund true false)) <= 100
  /\ snd (summary sample_tech sample_fund true false) = Good.
Proof.
  assert (Ht : valid_tech sample_tech).
  { unfold valid_tech, half_step, binary. simpl.
    repeat apply conj;
      first [ left; reflexivity | right; left; reflexivity
            | right; right; reflexivity | right; reflexivity ]. }
  assert (Hf : valid_fund sample_fund).
  { unfold valid_fund, half_step, binary. simpl.
    repeat apply conj;
      first [ left; reflexivity | right; left; reflexivity
            | right; right; reflexivity | right; reflexivity ]. }
  split; [exact Ht|]. split; [exact Hf|].
  destruct (summary_of_valid_scores sample_tech sample_fund true false Ht Hf)
    as (_ & _ & _ & _ & _ & _ & _ & H & _).
  split; [exact H | reflexivity].
Defined.


(** ** C9: falling back to the primary provider *)

Section Fallback.

Variable str_jval : jval -> string.
Variable str_status : Z -> string.
Variable str_keys : json -> string.
Variable py_int : string -> option Z.

(** A failure response yields no data and a message that is not empty. *)
Lemma fetch_failure (ticker api_key : string) (status_code : Z) (body : json) :
  failure_response body ->
  exists msg,
    fetch_alpha_vantage_data str_jval str_status str_keys ticker api_key
      (Replied status_code body) = (None, Some msg)
    /\ truthy_str (Some msg) = true.
Proof.
  intros Hf. unfold fetch_alpha_vantage_data.
  destruct (blank api_key); [eexists; split; reflexivity|].
  destruct (negb (status_code =? 200)%Z); [eexists; split; reflexivity|].
  unfold failure_response in Hf.
  repeat match goal with
         | |- context [match ?x with Some _ => _ | None => _ end] =>
             let E := fresh "E" in
             destruct x eqn:E; try (eexists; split; reflexivity)
         end.
  destruct Hf as [[? H]|[[? H]|[[? H]|H]]]; congruence.
Qed.

Lemma primary_run (ticker : string) (net : http_outcome)
      (primary : fund_data + string) (yahoo_info : option (gmap string num)) :
  use_av (select_provider str_jval str_status str_keys ticker "" net) = false
  /\ fundamental_scores str_jval str_status str_keys py_int ticker "" net
       primary yahoo_info = Some (primary_scores primary).
Proof.
  unfold fundamental_scores, select_provider. simpl.
  split; [reflexivity|]. destruct primary; reflexivity.
Qed.

(** C9.  When the secondary provider's response carries an
    ['Error Message'], a ['Note'] or an ['Information'] key, or no
    ['quarterlyReports'], the run uses the primary provider: no
    exception leaves the scorer, the scores are those of the primary
    provider alone, as in a run without a key, and the failure only
    shows in the advisory. *)
Theorem secondary_failure_falls_back
        (ticker av_key : string) (status_code : Z) (body : json)
        (primary : fund_data + string)
        (yahoo_info : option (gmap string num)) :
  failure_response body ->
  let net := Replied status_code body in
  let sel := select_provider str_jval str_status str_keys ticker av_key net in
  use_av sel = false
  /\ av_income sel = None
  /\ fundamental_scores str_jval str_status str_keys py_int ticker av_key net
       primary yahoo_info
     = Some (primary_scores primary)
  /\ fundamental_scores str_jval str_status str_keys py_int ticker av_key net
       primary yahoo_info
     = fundamental_scores str_jval str_status str_keys py_int ticker "" net
         primary yahoo_info
  /\ (blank av_key = false -> exists msg, advisory sel = Some (Some msg)).
Proof.
  intros Hf net sel.
  destruct (fetch_failure ticker av_key status_code body Hf)
    as (msg & Hfetch & Hmsg).
  assert (Hsel : sel = if negb (blank av_key)
                       then Selection false None (Some (Some msg))
                       else Selection false None None).
  { subst sel net. unfold select_provider.
    destruct (blank av_key); [reflexivity|]. simpl negb. cbv iota.
    rewrite Hfetch. rewrite Hmsg. reflexivity. }
  assert (Hrun : fundamental_scores str_jval str_status str_keys py_int
                   ticker av_key net primary yahoo_info
                 = Some (primary_scores primary)).
  { unfold fundamental_scores. fold sel. rewrite Hsel.
    destruct (blank av_key); simpl; destruct primary; reflexivity. }
  split; [rewrite Hsel; destruct (blank av_key); reflexivity|].
  split; [rewrite Hsel; destruct (blank av_key); reflexivity|].
  split; [exact Hrun|].
  split.
  - rewrite Hrun. symmetry. apply primary_run.
  - intros Hb. exists msg. rewrite Hsel, Hb. reflexivity.
Qed.

End Fallback.

Lemma rate_limit_witness :
  failure_response rate_limited
  /\ fundamental_scores (fun _ => "") (fun _ => "") (fun _ => "")
       int_decimal "DEMO" "key" (Replied 200 rate_limited)
       (inl flat_year_data) None
     = Some (primary_scores (inl flat_year_data)).
Proof.
  assert (H : failure_response rate_limited).
  { right. left. exists (JText "rate limit"). reflexivity. }
  split; [exact H|].
  apply (secondary_failure_falls_back (fun _ => "") (fun _ => "")
           (fun _ => "") int_decimal "DEMO" "key" 200 rate_limited
           (inl flat_year_data) None H).
Defined.


(** ** C10: the detector leaves its input alone *)

Lemma keeps_ret {A} (D : gset ref) (a : A) : keeps D (mret a).
Proof. intros s r _. reflexivity. Qed.

Lemma keeps_raise {A} (D : gset ref) : keeps D (@raise A).
Proof. intros s r _. reflexivity. Qed.

Lemma keeps_bind {A B} (D : gset ref) (m : M A) (k : A -> M B) :
  keeps D m -> (forall a, keeps D (k a)) -> keeps D (m ≫= k).
Proof.
  intros Hm Hk s r Hr. unfold mbind, M_bind, bind.
  specialize (Hm s r Hr). destruct (m s) as [[a|] s']; simpl in *.
  - rewrite <- Hm. apply Hk, Hr.
  - exact Hm.
Qed.

Lemma keeps_len (D : gset ref) (r : ref) : keeps D (len r).
Proof. intros s r0 _. reflexivity. Qed.

Lemma keeps_read (D : gset ref) (r : ref) : keeps D (read r).
Proof. intros s r0 _. reflexivity. Qed.

Lemma keeps_get_col (D : gset ref) (r : ref) (name : string) :
  keeps D (get_col r name).
Proof.
  intros s r0 _. unfold get_col.
  destruct (s !! r) as [f|]; [|reflexivity].
  destruct (cols f !! name) as [[xs|bs]|]; reflexivity.
Qed.

Lemma keeps_set_col (D : gset ref) (r : ref) (name : string) (c : column) :
  r ∉ D -> keeps D (set_col r name c).
Proof.
  intros Hr s r0 Hr0. unfold set_col.
  destruct (s !! r) as [f|]; [|reflexivity].
  simpl. apply lookup_insert_ne. intros ->. contradiction.
Qed.

Create HintDb keeps.
#[local] Hint Resolve keeps_ret keeps_raise keeps_len keeps_read
  keeps_get_col keeps_set_col : keeps.

Ltac keeps_steps :=
  repeat first
    [ apply keeps_bind; [solve [auto with keeps] | intros ?]
    | solve [auto with keeps]
    | match goal with
      | |- keeps _ (match ?x with _ => _ end) => destruct x
      | |- keeps _ (if ?b then _ else _) => destruct b
      end ].

(** C10.  The detector never changes a frame that was in the store when
    it was called, its input among them: the derived columns go to a
    frame that did not exist before, also when the call raises. *)
Theorem detect_key_bars_keeps_input (s : store) (df : option ref) (r : ref) :
  is_Some (s !! r) ->
  snd (detect_key_bars df s) !! r = s !! r.
Proof.
  intros Hr. destruct df as [df0|]; [|reflexivity].
  unfold detect_key_bars.
  unfold mbind at 1, M_bind at 1, bind at 1. unfold len at 1.
  destruct (s !! df0) as [f|] eqn:Hf; simpl; [|reflexivity].
  destruct (rows f <? 30)%nat; [reflexivity|].
  unfold mbind at 1, M_bind at 1, bind at 1. unfold copy at 1.
  rewrite Hf. cbv beta iota zeta.
  set (r' := fresh (dom s)).
  assert (Hfresh : r' ∉ dom s) by apply is_fresh.
  match goal with
  | |- snd (?m ?s1) !! r = _ =>
      assert (K : keeps (dom s) m)
  end.
  { keeps_steps. }
  rewrite K by (apply elem_of_dom; exact Hr).
  apply lookup_insert_ne. intros ->.
  apply Hfresh, elem_of_dom, Hr.
Qed.

Lemma detect_key_bars_keeps_witness :
  is_Some (breakout_store !! 1%positive)
  /\ snd (detect_key_bars (Some 1%positive) breakout_store) !! 1%positive
     = Some (frame_of_bars breakout_bars).
Proof.
  assert (H : is_Some (breakout_store !! 1%positive))
    by (eexists; reflexivity).
  split; [exact H|].
  rewrite (detect_key_bars_keeps_input breakout_store (Some 1%positive)
             1%positive H).
  reflexivity.
Defined.


(** ** C3: which bar the detector reports *)

Lemma bind_value {A B} (m : M A) (k : A -> M B) (s s' : store) (a : A) :
  m s = (Some a, s') -> (m ≫= k) s = k a s'.
Proof. intros H. unfold mbind, M_bind, bind. rewrite H. reflexivity. Qed.

Lemma copy_value (s : store) (r : ref) (f : frame) :
  s !! r = Some f ->
  copy r s = (Some (fresh (dom s)), <[fresh (dom s) := f]> s).
Proof. intros H. unfold copy. rewrite H. reflexivity. Qed.

Lemma get_col_value (s : store) (r : ref) (f : frame)
      (name : string) (xs : list num) :
  cols f !! name = Some (NumCol xs) ->
  get_col r name (<[r := f]> s) = (Some xs, <[r := f]> s).
Proof.
  intros H. unfold get_col. rewrite lookup_insert_eq, H. reflexivity.
Qed.

Lemma set_col_value (s : store) (r : ref) (f : frame)
      (name : string) (c : column) :
  set_col r name c (<[r := f]> s)
  = (Some tt, <[r := Frame (rows f) (<[name := c]> (cols f))]> s).
Proof.
  unfold set_col. rewrite lookup_insert_eq, insert_insert_eq. reflexivity.
Qed.

Lemma read_value (s : store) (r : ref) (f : frame) :
  read r (<[r := f]> s) = (Some f, <[r := f]> s).
Proof. unfold read. rewrite lookup_insert_eq. reflexivity. Qed.

Lemma frame_cols (bars : list bar) :
  cols (frame_of_bars bars)
  = <["Open" := NumCol (opens bars)]>
      (<["High" := NumCol (highs bars)]>
         (<["Low" := NumCol (lows bars)]>
            (<["Close" := NumCol (closes bars)]>
               (<["Volume" := NumCol (volumes bars)]> ∅)))).
Proof. reflexivity. Qed.

Ltac column :=
  cbn [cols]; rewrite ?frame_cols;
  repeat (rewrite lookup_insert_ne by discriminate);
  apply lookup_insert_eq.

Lemma detect_key_bars_run (s : store) (r : ref) (bars : list bar) :
  s !! r = Some (frame_of_bars bars) ->
  (30 <= length bars)%nat ->
  detect_key_bars (Some r) s
  = (Some (Some (fresh (dom s)),
           iloc (detected_frame bars)
             <$> latest_key_bar (key_flags bars) (length bars)),
     <[fresh (dom s) := detected_frame bars]> s).
Proof.
  intros Hr Hn. unfold detect_key_bars.
  unfold mbind at 1, M_bind at 1, bind at 1. unfold len at 1.
  rewrite Hr. simpl fmap. cbv beta iota.
  destruct (Nat.ltb_spec (length bars) 30); [lia|].
  rewrite (bind_value _ _ _ _ _ (copy_value s r _ Hr)).
  erewrite bind_value; [|apply get_col_value; column].
  erewrite bind_value; [|apply set_col_value].
  erewrite bind_value; [|apply get_col_value; column].
  erewrite bind_value; [|apply get_col_value; column].
  erewrite bind_value; [|apply set_col_value].
  erewrite bind_value; [|apply get_col_value; column].
  erewrite bind_value; [|apply set_col_value].
  erewrite bind_value; [|apply get_col_value; column].
  erewrite bind_value; [|apply get_col_value; column].
  erewrite bind_value; [|apply get_col_value; column].
  erewrite bind_value; [|apply get_col_value; column].
  erewrite bind_value; [|apply get_col_value; column].
  erewrite bind_value; [|apply set_col_value].
  erewrite bind_value; [|apply read_value].
  cbn [rows cols].
  fold (volume_sma30 bars) (change_pct bars) (high_5d_previous bars).
  fold (key_flags bars).
  change (rows (frame_of_bars bars)) with (length bars).
  unfold latest_key_bar, detected_frame.
  destruct (last (filter (fun i : nat => key_flags bars !! i = Some true)
                         (tail_positions 10 (length bars))));
    reflexivity.
Qed.

(** The last element of a filtered range is the greatest position that
    passes the filter. *)
Lemma last_filter_seq (P : nat -> Prop) `{!forall x, Decision (P x)}
      (a k i : nat) :
  last (filter P (seq a k)) = Some i <->
  (a <= i < a + k)%nat /\ P i /\ forall j, (i < j < a + k)%nat -> ~ P j.
Proof.
  revert i. induction k as [|k IH]; intros i.
  - simpl. split; [discriminate | lia].
  - rewrite seq_S, filter_app, last_app.
    rewrite filter_cons, filter_nil.
    destruct (decide (P (a + k)%nat)) as [Hp|Hp]; simpl.
    + split.
      * intros [= <-]. split; [lia|]. split; [exact Hp|]. intros j Hj. lia.
      * intros (Hi & Hpi & Hmax). f_equal.
        destruct (decide (i = a + k)%nat) as [->|Hne]; [reflexivity|].
        exfalso. apply (Hmax (a + k)%nat); [lia | exact Hp].
    + rewrite IH. split.
      * intros (Hi & Hpi & Hmax). split; [lia|]. split; [exact Hpi|].
        intros j Hj. destruct (decide (j = a + k)%nat) as [->|Hne];
          [exact Hp | apply Hmax; lia].
      * intros (Hi & Hpi & Hmax).
        assert (i <> a + k)%nat by (intros ->; contradiction).
        split; [lia|]. split; [exact Hpi|]. intros j Hj. apply Hmax. lia.
Qed.


(** ** Rolling windows over a column of numbers *)





Lemma shift1_length (xs : list num) : length (shift1 xs) = length xs.
Proof. unfold shift1. rewrite length_take. simpl. lia. Qed.











Lemma latest_key_bar_Some (flags : list bool) (n i : nat) :
  latest_key_bar flags n = Some i <->
  (n - 10 <= i < n)%nat /\ flags !! i = Some true
  /\ forall j : nat, (i < j < n)%nat -> flags !! j <> Some true.
Proof.
  unfold latest_key_bar, tail_positions. rewrite last_filter_seq.
  replace (n - 10 + (n - (n - 10)))%nat with n by lia. reflexivity.
Qed.







(** * Further properties of the program *)

(** ** The secondary provider's fetch and the selection *)

Section FetchFacts.

Variable str_jval : jval -> string.
Variable str_status : Z -> string.
Variable str_keys : json -> string.
Variable py_int : string -> option Z.



(** Whenever the secondary provider is not used, whatever the reason,
    the run scores from the primary provider alone and does not raise. *)
Theorem fallback_scores_from_primary
        (ticker av_key : string) (net : http_outcome)
        (primary : fund_data + string)
        (yahoo_info : option (gmap string num)) :
  use_av (select_provider str_jval str_status str_keys ticker av_key net)
  = false ->
  fundamental_scores str_jval str_status str_keys py_int ticker av_key net
    primary yahoo_info
  = Some (primary_scores primary).
Proof.
  intros H. unfold fundamental_scores. rewrite H.
  destruct primary; reflexivity.
Qed.

End FetchFacts.

Lemma fallback_witness :
  use_av (select_provider (fun _ => "") (fun _ => "") (fun _ => "")
            "DEMO" "key" (Raised "timed out")) = false
  /\ fundamental_scores (fun _ => "") (fun _ => "") (fun _ => "")
       int_decimal "DEMO" "key" (Raised "timed out")
       (inr "no network") None
     = Some no_scores.
Proof.
  split; [reflexivity|].
  apply (fallback_scores_from_primary (fun _ => "") (fun _ => "")
           (fun _ => "") int_decimal "DEMO" "key" (Raised "timed out")
           (inr "no network") None).
  reflexivity.
Defined.

(** ** The secondary scorer: which reports count, and when it raises *)

Lemma mapM_agree {A B} (f g : A -> option B) (l : list A) :
  (forall x, x ∈ l -> f x = g x) -> mapM f l = mapM g l.
Proof.
  induction l as [|x l IH]; intros H; [reflexivity|].
  simpl. rewrite (H x) by left.
  rewrite IH; [reflexivity|]. intros y Hy. apply H. right. exact Hy.
Qed.

Section TwelveReports.

Variable py_int : string -> option Z.

Lemma extract_take (key : string) (income_data : list report) (n : nat) :
  (8 <= n)%nat ->
  extract py_int key (take n income_data) = extract py_int key income_data.
Proof.
  intros Hn. unfold extract. rewrite take_take.
  replace (8 `min` n)%nat with 8%nat by lia. reflexivity.
Qed.

Lemma growth_list_take (key : string) (income_data : list report)
      (currents : list Z) :
  (12 <= length income_data)%nat ->
  growth_list py_int key (take 12 income_data) currents
  = growth_list py_int key income_data currents.
Proof.
  intros Hn. unfold growth_list.
  rewrite length_take_le by exact Hn.
  destruct (Nat.leb_spec 12 (length income_data)); [|lia].
  simpl (12 <=? 12)%nat. cbv iota.
  apply mapM_agree. intros i Hi. apply elem_of_seq in Hi.
  rewrite lookup_take_lt by lia. reflexivity.
Qed.

Lemma av_rule_of_40_take (income_data : list report)
      (revenues gross_profits : list Z) :
  (12 <= length income_data)%nat ->
  av_rule_of_40 py_int (take 12 income_data) revenues gross_profits
  = av_rule_of_40 py_int income_data revenues gross_profits.
Proof.
  intros Hn. unfold av_rule_of_40.
  rewrite length_take_le by exact Hn.
  destruct (Nat.leb_spec 5 (length income_data)); [|lia].
  simpl (5 <=? 12)%nat. cbv iota.
  rewrite lookup_take_lt by lia. reflexivity.
Qed.

Lemma growth_score_take (rule : option Q -> option Q -> Q)
      (income_data : list report) (g : list (option Q)) :
  (12 <= length income_data)%nat ->
  growth_score rule (take 12 income_data) g = growth_score rule income_data g.
Proof.
  intros Hn. unfold growth_score. rewrite length_take_le by exact Hn.
  destruct (Nat.leb_spec 8 (length income_data)); [reflexivity | lia].
Qed.

(** Reports after the twelfth never change what the secondary scorer
    computes: its scores, the figures, growth rates and margins of its
    details, and whether it raises.  (The count of reports the details
    also carry is not part of [details] here.) *)
Theorem reports_after_the_twelfth_are_ignored
        (income_data : list report) (ticker : string) :
  calculate_alpha_vantage_fundamentals py_int (take 12 income_data) ticker
  = calculate_alpha_vantage_fundamentals py_int income_data ticker.
Proof.
  destruct (Nat.le_gt_cases 12 (length income_data)) as [Hn|Hn];
    [|rewrite take_ge by lia; reflexivity].
  unfold calculate_alpha_vantage_fundamentals.
  rewrite length_take_le by exact Hn.
  destruct (Nat.ltb_spec (length income_data) 4); [lia|].
  simpl (12 <? 4)%nat. cbv iota.
  rewrite !extract_take by lia.
  destruct (extract py_int "totalRevenue" income_data) as [revs|];
    [|reflexivity]. cbn [mbind option_bind].
  destruct (extract py_int "netIncome" income_data) as [nis|];
    [|reflexivity]. cbn [mbind option_bind].
  destruct (extract py_int "grossProfit" income_data) as [gps|];
    [|reflexivity]. cbn [mbind option_bind].
  rewrite !growth_list_take by exact Hn.
  destruct (growth_list py_int "totalRevenue" income_data revs) as [sg|];
    [|reflexivity]. cbn [mbind option_bind].
  destruct (growth_list py_int "netIncome" income_data nis) as [eg|];
    [|reflexivity]. cbn [mbind option_bind].
  rewrite av_rule_of_40_take by exact Hn.
  rewrite !growth_score_take by exact Hn. reflexivity.
Qed.


End TwelveReports.

Section ScorerRaises.

Variable py_int : string -> option Z.


Lemma extract_fails (key : string) (income_data : list report)
      (i : nat) (q : report) (s : string) :
  (i < 8)%nat -> income_data !! i = Some q -> q !! key = Some s ->
  s <> "" -> s <> "None" -> py_int s = None ->
  extract py_int key income_data = None.
Proof.
  intros Hi Hq Hs H1 H2 Hp. unfold extract.
  apply mapM_None_2, Exists_exists. exists q. split.
  - apply list_elem_of_lookup. exists i. rewrite lookup_take_lt by lia.
    exact Hq.
  - rewrite Hs, int_or_zero_present by assumption. exact Hp.
Qed.

(** With at least four reports, one metric of the first eight reports
    that [int] rejects makes the whole scorer raise: on this path no
    indicator is scored once one field is malformed. *)
Theorem malformed_metric_aborts_scorer
        (income_data : list report) (ticker : string)
        (i : nat) (q : report) (key s : string) :
  (4 <= length income_data)%nat ->
  (i < 8)%nat -> income_data !! i = Some q -> metric key ->
  q !! key = Some s -> s <> "" -> s <> "None" -> py_int s = None ->
  calculate_alpha_vantage_fundamentals py_int income_data ticker = None.
Proof.
  intros Hn Hi Hq Hk Hs H1 H2 Hp.
  pose proof (extract_fails key income_data i q s Hi Hq Hs H1 H2 Hp) as Hx.
  unfold calculate_alpha_vantage_fundamentals.
  destruct (Nat.ltb_spec (length income_data) 4); [lia|].
  destruct Hk as [-> | [-> | ->]].
  - rewrite Hx. reflexivity.
  - destruct (extract py_int "totalRevenue" income_data); [|reflexivity].
    simpl. rewrite Hx. reflexivity.
  - destruct (extract py_int "totalRevenue" income_data); [|reflexivity].
    simpl.
    destruct (extract py_int "netIncome" income_data); [|reflexivity].
    simpl. rewrite Hx. reflexivity.
Qed.

End ScorerRaises.


Lemma malformed_metric_witness :
  malformed_quarters !! 1%nat = Some (quarter "n/a" "35" "10")
  /\ int_decimal "n/a" = None
  /\ calculate_alpha_vantage_fundamentals int_decimal malformed_quarters
       "DEMO" = None.
Proof.
  split; [reflexivity|]. split; [reflexivity|].
  apply (malformed_metric_aborts_scorer int_decimal malformed_quarters
           "DEMO" 1 (quarter "n/a" "35" "10") "totalRevenue" "n/a").
  - simpl. lia.
  - lia.
  - reflexivity.
  - left. reflexivity.
  - reflexivity.
  - discriminate.
  - discriminate.
  - reflexivity.
Defined.

(** ** The earnings score and the acceleration flag *)

Lemma yahoo_earnings_score (inc : gmap string (list num)) :
  let g := snd (Yahoo.earnings_block inc) in
  fst (Yahoo.earnings_block inc)
  == additive_rule 20 (nentry g 0) (nentry g 1).
Proof.
  unfold Yahoo.earnings_block.
  destruct (inc !! "Net Income") as [row|]; [|reflexivity].
  set (values := take 8 row).
  pose proof (growth_rates_short values) as Hs.
  pose proof (growth_rates_long values) as Hl.
  pose proof (accelerating_long values) as Ha.
  destruct (check_growth_acceleration values) as [acc g] eqn:E.
  simpl in *.
  destruct (Nat.ltb_spec (length values) 5) as [H|H].
  - injection (Hs H) as -> ->. reflexivity.
  - rewrite (Hl H), (Ha H). unfold nentry, first. simpl.
    destruct (yoy_block values 0) as [[|l]|],
             (yoy_block values 1) as [[|p]|];
      simpl; unfold additive_rule; by_comparisons; lra.
Qed.

(** On both paths the earnings score is 0, 0.5 or 1: one half for a
    latest growth rate above the previous one, one half for a latest
    rate above 20; there is no jump to 1 as in the sales score, and the
    score is 0 when the latest rate is null. *)
Theorem earnings_score_of_both_paths
        (inc : gmap string (list num)) (py_int : string -> option Z)
        (income_data : list report) (ticker : string)
        (s : scores) (d : details) :
  calculate_alpha_vantage_fundamentals py_int income_data ticker
  = Some (s, d) ->
  let g := snd (Yahoo.earnings_block inc) in
  additive_score_ok 20 (nentry g 0) (nentry g 1)
    (fst (Yahoo.earnings_block inc))
  /\ additive_score_ok 20 (entry (d_earnings_growth d) 0)
       (entry (d_earnings_growth d) 1) (earnings s).
Proof.
  intros Hcalc g. split.
  - eapply additive_score_ok_proper;
      [symmetry; apply yahoo_earnings_score | apply additive_rule_ok].
  - destruct (Nat.ltb_spec (length income_data) 4) as [Hn|Hn].
    + rewrite av_short in Hcalc by lia. injection Hcalc as <- <-.
      apply (additive_rule_ok 20 None None).
    + destruct (av_inv _ _ _ _ _ Hn Hcalc)
        as (_ & _ & _ & _ & Hg & _ & _ & _ & _ & -> & _).
      unfold growth_score, entry.
      destruct (Nat.leb_spec 8 (length income_data)) as [H8|H8].
      * apply (additive_rule_ok 20).
      * unfold growth_list in Hg.
        destruct (Nat.leb_spec 12 (length income_data)); [lia|].
        destruct (Nat.leb_spec 8 (length income_data)); [lia|].
        injection Hg as <-. apply (additive_rule_ok 20 None None).
Qed.

Lemma earnings_score_witness :
  calculate_alpha_vantage_fundamentals int_decimal eight_quarters "DEMO"
  = Some eight_result
  /\ additive_score_ok 20 (entry (d_earnings_growth (snd eight_result)) 0)
       (entry (d_earnings_growth (snd eight_result)) 1)
       (earnings (fst eight_result)).
Proof.
  split; [vm_compute; reflexivity|].
  apply (earnings_score_of_both_paths accelerating_income int_decimal
           eight_quarters "DEMO" (fst eight_result) (snd eight_result)).
  vm_compute. reflexivity.
Defined.

(** The growth calculator reports acceleration exactly when its first
    two rates are both known and the first is the greater; a series of
    fewer than six values is never accelerating. *)
Theorem acceleration_needs_two_rates (values : list num) :
  (fst (check_growth_acceleration values) = true <->
   exists g0 g1,
     snd (check_growth_acceleration values) !! 0%nat = Some (Some (Fin g0))
     /\ snd (check_growth_acceleration values) !! 1%nat
        = Some (Some (Fin g1))
     /\ g1 < g0)
  /\ ((length values < 6)%nat ->
      fst (check_growth_acceleration values) = false).
Proof.
  destruct (Nat.ltb_spec (length values) 5) as [H|H].
  - rewrite growth_rates_short by exact H. simpl. split.
    + split; [discriminate | intros (? & ? & ? & _); discriminate].
    + reflexivity.
  - rewrite accelerating_long, growth_rates_long by exact H. simpl. split.
    + destruct (yoy_block values 0) as [[|a]|] eqn:E0;
        destruct (yoy_block values 1) as [[|b]|] eqn:E1; simpl;
        try (split; [discriminate
                    | intros (? & ? & ? & ? & _); discriminate]).
      rewrite gtb_true. split.
      * intros Hlt. exists a, b. auto.
      * intros (g0 & g1 & [= <-] & [= <-] & Hlt). exact Hlt.
    + intros H6.
      assert (E : yoy_block values 1 = None).
      { unfold yoy_block. rewrite (lookup_ge_None_2 values (1 + 4)) by lia.
        destruct (values !! 1%nat); reflexivity. }
      rewrite E. destruct (yoy_block values 0); reflexivity.
Qed.

Lemma acceleration_witness :
  (length (map of_Z [120; 100; 90; 80; 110]%Z) < 6)%nat
  /\ fst (check_growth_acceleration (map of_Z [120; 100; 90; 80; 110]%Z))
     = false.
Proof.
  split; [simpl; lia|].
  apply (acceleration_needs_two_rates (map of_Z [120; 100; 90; 80; 110]%Z)).
  simpl. lia.
Defined.

(** ** The primary scorer: what it reads *)

Lemma first_take {A} (n : nat) (xs : list A) :
  (0 < n)%nat -> first (take n xs) = first xs.
Proof. intros H. unfold first. apply lookup_take_lt. exact H. Qed.

Lemma take_take_le {A} (n m : nat) (xs : list A) :
  (n <= m)%nat -> take n (take m xs) = take n xs.
Proof.
  intros H. rewrite take_take. replace (n `min` m)%nat with n by lia.
  reflexivity.
Qed.

(** Quarters after the eighth of the income statement and after the
    fourth of the balance sheet never change a score of the primary
    path. *)
Theorem later_quarters_are_ignored (d : fund_data) :
  Yahoo.calculate_fundamental_scores (Some (first_quarters d))
  = Yahoo.calculate_fundamental_scores (Some d).
Proof.
  unfold Yahoo.calculate_fundamental_scores, first_quarters. cbn [income balance info].
  f_equal.
  - unfold Yahoo.sales_block. rewrite lookup_fmap.
    destruct (income d !! "Total Revenue") as [row|]; [|reflexivity].
    simpl. rewrite take_take_le by lia. reflexivity.
  - unfold Yahoo.margin_block, Yahoo.gross_margin_values.
    rewrite !lookup_fmap.
    destruct (income d !! "Gross Profit") as [g|]; [|reflexivity].
    destruct (income d !! "Total Revenue") as [r|]; [|reflexivity].
    simpl. rewrite !take_take_le by lia. reflexivity.
  - unfold Yahoo.earnings_block. rewrite lookup_fmap.
    destruct (income d !! "Net Income") as [row|]; [|reflexivity].
    simpl. rewrite take_take_le by lia. reflexivity.
  - unfold Yahoo.rule_of_40_block, Yahoo.profit_margin_pct,
      Yahoo.revenue_growth.
    rewrite !lookup_fmap.
    destruct (income d !! "Total Revenue") as [r|],
             (income d !! "Gross Profit") as [g|],
             (income d !! "EBITDA") as [e|];
      simpl; rewrite ?take_take_le, ?first_take by lia; reflexivity.
  - unfold Yahoo.roe_block, Yahoo.roe_quarters. cbn [income balance info].
    rewrite !lookup_fmap.
    destruct (info d !! "returnOnEquity"); [reflexivity|].
    destruct (income d !! "Net Income") as [n|]; [|reflexivity].
    destruct (balance d !! "Stockholders Equity") as [e|]; [|reflexivity].
    simpl. rewrite !take_take_le by lia. reflexivity.
Qed.

(** Without a revenue row the sales-growth, gross-margin and Rule-of-40
    scores are 0, whatever the other rows hold. *)
Theorem no_revenue_row_no_revenue_scores (d : fund_data) :
  income d !! "Total Revenue" = None ->
  let s := Yahoo.calculate_fundamental_scores (Some d) in
  sales_growth s = 0 /\ gross_margin s = 0 /\ rule_of_40 s = 0.
Proof.
  intros H. simpl.
  unfold Yahoo.sales_block, Yahoo.margin_block, Yahoo.gross_margin_values,
    Yahoo.rule_of_40_block, Yahoo.profit_margin_pct, Yahoo.revenue_growth.
  rewrite H.
  destruct (income d !! "Gross Profit"), (income d !! "EBITDA");
    repeat split; reflexivity.
Qed.

Lemma no_revenue_row_witness :
  income (FundData {[ "Net Income" := map of_Z [5; 4; 3; 2; 1]%Z ]} ∅ ∅)
    !! "Total Revenue" = None
  /\ rule_of_40
       (Yahoo.calculate_fundamental_scores
          (Some (FundData {[ "Net Income" := map of_Z [5; 4; 3; 2; 1]%Z ]}
                          ∅ ∅))) = 0.
Proof.
  split; [reflexivity|].
  apply (no_revenue_row_no_revenue_scores
           (FundData {[ "Net Income" := map of_Z [5; 4; 3; 2; 1]%Z ]} ∅ ∅)).
  reflexivity.
Defined.

(** When the income statement has no gross-profit row, the Rule of 40
    takes the EBITDA row in its place. *)
Theorem ebitda_stands_in_for_gross_profit
        (inc : gmap string (list num)) (ebitda : list num) :
  inc !! "Gross Profit" = None ->
  inc !! "EBITDA" = Some ebitda ->
  Yahoo.rule_of_40_block inc
  = Yahoo.rule_of_40_block (<["Gross Profit" := ebitda]> inc).
Proof.
  intros Hg He.
  unfold Yahoo.rule_of_40_block, Yahoo.profit_margin_pct,
    Yahoo.revenue_growth.
  rewrite lookup_insert_eq.
  rewrite !(lookup_insert_ne inc "Gross Profit") by discriminate.
  rewrite Hg, He.
  destruct (inc !! "Total Revenue") as [r|]; reflexivity.
Qed.

Lemma ebitda_witness :
  ebitda_income !! "Gross Profit" = None
  /\ ebitda_income !! "EBITDA" = Some (map of_Z [30; 20]%Z)
  /\ Yahoo.rule_of_40_block ebitda_income == 1.
Proof.
  split; [reflexivity|]. split; [reflexivity|].
  rewrite (ebitda_stands_in_for_gross_profit ebitda_income
             (map of_Z [30; 20]%Z)) by reflexivity.
  vm_compute. reflexivity.
Defined.

(** ** The fundamental score of a run *)

Lemma no_scores_valid : valid_fund no_scores.
Proof. repeat split; first [apply half_step_zero | apply binary_zero]. Qed.

Lemma primary_scores_valid (primary : fund_data + string) :
  valid_fund (primary_scores primary).
Proof.
  destruct primary; [apply yahoo_scores_valid | apply no_scores_valid].
Qed.

Lemma fundamental_scores_valid
      (str_jval : jval -> string) (str_status : Z -> string)
      (str_keys : json -> string) (py_int : string -> option Z)
      (ticker av_key : string) (net : http_outcome)
      (primary : fund_data + string)
      (yahoo_info : option (gmap string num)) (f : scores) :
  fundamental_scores str_jval str_status str_keys py_int ticker av_key net
    primary yahoo_info = Some f ->
  valid_fund f.
Proof.
  intros H. unfold fundamental_scores in H.
  destruct (use_av _).
  - unfold av_scores in H.
    destruct (av_income _) as [[t|rs]|]; [| |discriminate].
    + destruct (String.length t <? 4)%nat; [|discriminate].
      simpl in H. injection H as <-.
      apply roe_supplement_valid, no_scores_valid.
    + destruct (calculate_alpha_vantage_fundamentals py_int rs ticker)
        as [[s d]|] eqn:E; [|discriminate].
      simpl in H. injection H as <-.
      eapply roe_supplement_valid, av_scores_valid, E.
  - destruct primary as [d|e]; simpl in H; injection H as <-.
    + apply (yahoo_scores_valid (Some d)).
    + apply no_scores_valid.
Qed.

(** Whichever provider backs a run that completes, each fundamental
    sub-score is within its domain and their sum is within [0, 5]. *)
Theorem fundamental_total_within_bounds
        (str_jval : jval -> string) (str_status : Z -> string)
        (str_keys : json -> string) (py_int : string -> option Z)
        (ticker av_key : string) (net : http_outcome)
        (primary : fund_data + string)
        (yahoo_info : option (gmap string num)) (f : scores) :
  fundamental_scores str_jval str_status str_keys py_int ticker av_key net
    primary yahoo_info = Some f ->
  valid_fund f /\ 0 <= sum_scores f <= 5.
Proof.
  intros H.
  pose proof (fundamental_scores_valid _ _ _ _ _ _ _ _ _ _ H) as V.
  split; [exact V | apply fund_bounds, V].
Qed.

Lemma fundamental_total_witness :
  fundamental_scores (fun _ => "") (fun _ => "") (fun _ => "") int_decimal
    "DEMO" "key"
    (Replied 200 {[ "quarterlyReports" := JReports eight_quarters ]})
    (inr "unused") (Some high_roe_info)
  = Some (roe_supplement (Some high_roe_info) (fst eight_result))
  /\ 0 <= sum_scores (roe_supplement (Some high_roe_info) (fst eight_result))
     <= 5.
Proof.
  assert (H : fundamental_scores (fun _ => "") (fun _ => "") (fun _ => "")
                int_decimal "DEMO" "key"
                (Replied 200
                   {[ "quarterlyReports" := JReports eight_quarters ]})
                (inr "unused") (Some high_roe_info)
              = Some (roe_supplement (Some high_roe_info)
                        (fst eight_result)))
    by (vm_compute; reflexivity).
  split; [exact H|].
  apply (fundamental_total_within_bounds _ _ _ _ _ _ _ _ _ _ H).
Defined.

(** ** Moving averages and the stage *)







(** The stage of four numbers: the three named stages are told apart by
    strict orderings that exclude one another, anything else is
    "Other"; the score is 1 for "S2" only, one half for "S1" and
    "S3 Strong", and 0 for "Other". *)
Theorem stage_of_numbers (p a b c : Q) :
  let res := calculate_stage (Fin p) (Fin a) (Fin b) (Fin c) in
  (res = ("S2", 1) <-> a < p /\ b < a /\ c < b)
  /\ (res = ("S1", 0.5) <-> a < p /\ b < a /\ b < c)
  /\ (res = ("S3 Strong", 0.5) <-> a < p /\ a < b /\ c < b)
  /\ (res = ("Other", 0) <->
      ~ (a < p /\ b < a /\ c < b) /\ ~ (a < p /\ b < a /\ b < c)
      /\ ~ (a < p /\ a < b /\ c < b))
  /\ (res = ("S2", 1) \/ res = ("S1", 0.5) \/ res = ("S3 Strong", 0.5)
      \/ res = ("Other", 0)).
Proof.
  unfold calculate_stage, lt, gt.
  by_comparisons; cbn [andb];
    repeat split; intros; try discriminate; try lra; auto;
    try (match goal with H : _ /\ _ |- _ => destruct H as (? & ? & ?) end;
         lra);
    try (intros (? & ? & ?); lra);
    try (right; left; reflexivity); try (left; reflexivity);
    try (right; right; left; reflexivity);
    try (right; right; right; reflexivity);
    try (exfalso;
         match goal with
         | H : ~ _ /\ ~ _ /\ ~ _ |- _ =>
             destruct H as (H1 & H2 & H3);
             first [apply H1; repeat split; assumption
                   | apply H2; repeat split; assumption
                   | apply H3; repeat split; assumption]
         end).
Qed.

(** A price or average that is NaN always gives "Other" and score 0. *)
Theorem stage_with_nan (price ma_50 ma_150 ma_200 : num) :
  isna price || isna ma_50 || isna ma_150 || isna ma_200 = true ->
  calculate_stage price ma_50 ma_150 ma_200 = ("Other", 0).
Proof.
  unfold calculate_stage, lt.
  destruct price, ma_50, ma_150, ma_200; simpl; try discriminate;
    intros _; rewrite ?andb_false_r; reflexivity.
Qed.

Lemma stage_with_nan_witness :
  isna (Fin 10) || isna NaN || isna (Fin 8) || isna (Fin 7) = true
  /\ calculate_stage (Fin 10) NaN (Fin 8) (Fin 7) = ("Other", 0).
Proof.
  split; [reflexivity|].
  apply (stage_with_nan (Fin 10) NaN (Fin 8) (Fin 7)). reflexivity.
Defined.

(** ** The key-bar step *)

(** With fewer than 30 bars the detector returns nothing, allocates no
    frame and leaves the store as it is, and the key-bar score is 0. *)
Theorem short_history_scores_zero (s : store) (r : ref) (f : frame) :
  s !! r = Some f -> (rows f < 30)%nat ->
  detect_key_bars (Some r) s = (Some (None, None), s)
  /\ key_bar_step r s = (Some 0, s).
Proof.
  intros Hr Hn.
  assert (E : detect_key_bars (Some r) s = (Some (None, None), s)).
  { unfold detect_key_bars.
    unfold mbind at 1, M_bind at 1, bind at 1. unfold len at 1.
    rewrite Hr. simpl fmap. cbv beta iota.
    destruct (Nat.ltb_spec (rows f) 30); [reflexivity | lia]. }
  split; [exact E|].
  unfold key_bar_step. rewrite (bind_value _ _ _ _ _ E). reflexivity.
Qed.

Lemma short_history_witness :
  short_store !! 1%positive = Some (frame_of_bars short_bars)
  /\ key_bar_step 1%positive short_store = (Some 0, short_store).
Proof.
  split; [reflexivity|].
  apply (short_history_scores_zero short_store 1%positive
           (frame_of_bars short_bars)); [reflexivity|].
  vm_compute. lia.
Defined.

Lemma detected_close (bars : list bar) :
  cols (detected_frame bars) !! "Close" = Some (NumCol (closes bars)).
Proof.
  unfold detected_frame. cbn [cols]. rewrite frame_cols.
  repeat (rewrite lookup_insert_ne by discriminate).
  apply lookup_insert_eq.
Qed.

Lemma iloc_close (bars : list bar) (i : nat) (b : bar) :
  bars !! i = Some b ->
  row_cells (iloc (detected_frame bars) i) !! "Close"
  = Some (CNum (Fin (b_close b))).
Proof.
  intros Hb. unfold iloc. cbn [row_cells].
  rewrite lookup_omap, detected_close. simpl.
  unfold closes. change (map ?f bars) with (fmap (M := list) f bars).
  rewrite list_lookup_fmap, Hb. reflexivity.
Qed.

Lemma last_closes (bars : list bar) (b : bar) :
  last bars = Some b -> last (closes bars) = Some (Fin (b_close b)).
Proof.
  intros H. unfold closes.
  change (map ?f bars) with (fmap (M := list) f bars).
  rewrite fmap_last, H. reflexivity.
Qed.

(** What the key-bar step comes to on the frame of at least 30 bars. *)
Lemma key_bar_step_run (s : store) (r : ref) (bars : list bar) :
  s !! r = Some (frame_of_bars bars) ->
  (30 <= length bars)%nat ->
  exists last_bar,
    last bars = Some last_bar
    /\ key_bar_step r s
       = (Some (match latest_key_bar (key_flags bars) (length bars)
                      ≫= (fun i => bars !! i) with
                | Some b =>
                    if geb (b_close b * (105 # 100)) (b_close last_bar)
                    then 0.5 + 0.5 else 0.5
                | None => 0
                end),
          <[fresh (dom s) := detected_frame bars]> s).
Proof.
  intros Hr Hn.
  destruct (last bars) as [last_bar|] eqn:Hl.
  2:{ apply last_None in Hl. subst bars. simpl in Hn. lia. }
  exists last_bar. split; [reflexivity|].
  unfold key_bar_step.
  rewrite (bind_value _ _ _ _ _ (detect_key_bars_run s r bars Hr Hn)).
  cbn [fst snd].
  destruct (latest_key_bar (key_flags bars) (length bars)) as [i|] eqn:Hi;
    [|reflexivity].
  assert (Hb : is_Some (bars !! i)).
  { apply latest_key_bar_Some in Hi as (Hi & _). apply lookup_lt_is_Some.
    lia. }
  destruct Hb as [b Hb]. cbn [fmap option_fmap option_map mbind option_bind].
  rewrite Hb. unfold calculate_key_bar_score.
  erewrite bind_value; [|apply get_col_value, detected_close].
  rewrite (last_closes bars last_bar Hl), (iloc_close bars i b Hb).
  reflexivity.
Qed.



(** ** The frame the detector returns *)

Lemma rolling_length (w : nat) (agg : list Q -> Q) (xs : list num) :
  length (rolling w agg xs) = length xs.
Proof. unfold rolling. apply length_imap. Qed.

Lemma volume_sma30_length (bars : list bar) :
  length (volume_sma30 bars) = length bars.
Proof.
  unfold volume_sma30, volumes. rewrite rolling_length. apply length_map.
Qed.

Lemma change_pct_length (bars : list bar) :
  length (change_pct bars) = length bars.
Proof.
  unfold change_pct, closes, opens.
  rewrite !length_zip_with, !length_map. lia.
Qed.

Lemma high_5d_previous_length (bars : list bar) :
  length (high_5d_previous bars) = length bars.
Proof.
  unfold high_5d_previous, highs.
  rewrite rolling_length, shift1_length. apply length_map.
Qed.

Lemma key_flags_full_length (bars : list bar) :
  length (key_flags bars) = length bars.
Proof.
  unfold key_flags. rewrite !length_zip_with, length_map.
  rewrite volume_sma30_length, change_pct_length, high_5d_previous_length.
  unfold volumes, highs. rewrite !length_map. lia.
Qed.

(** With at least 30 bars the detector returns a new frame with as many
    rows as the input; it holds every column of the input unchanged
    and the four derived columns, and every column has one entry per
    bar. *)
Theorem returned_frame_lines_up (s : store) (r : ref) (bars : list bar) :
  s !! r = Some (frame_of_bars bars) ->
  (30 <= length bars)%nat ->
  exists (df : ref) (kb : option row) (f' : frame),
    detect_key_bars (Some r) s = (Some (Some df, kb), <[df := f']> s)
    /\ s !! df = None
    /\ rows f' = length bars
    /\ (forall name c, cols (frame_of_bars bars) !! name = Some c ->
                       cols f' !! name = Some c)
    /\ (forall name c, cols f' !! name = Some c ->
                       column_length c = length bars)
    /\ is_Some (cols f' !! "Volume_SMA30")
    /\ is_Some (cols f' !! "Open_Close_Change_Pct")
    /\ is_Some (cols f' !! "High_5D_Previous")
    /\ is_Some (cols f' !! "Is_Key_Bar").
Proof.
  intros Hr Hn. eexists. eexists. exists (detected_frame bars).
  split; [apply (detect_key_bars_run s r bars Hr Hn)|].
  split; [apply not_elem_of_dom, is_fresh|].
  split; [reflexivity|].
  split.
  { intros name c Hc. unfold detected_frame. cbn [cols].
    assert (Hne : name <> "Is_Key_Bar" /\ name <> "High_5D_Previous"
                  /\ name <> "Open_Close_Change_Pct"
                  /\ name <> "Volume_SMA30").
    { rewrite frame_cols in Hc.
      repeat split; intros ->;
        repeat (rewrite lookup_insert_ne in Hc by discriminate);
        rewrite lookup_empty in Hc; discriminate. }
    destruct Hne as (H1 & H2 & H3 & H4).
    rewrite !lookup_insert_ne by congruence. exact Hc. }
  split.
  { intros name c. unfold detected_frame. cbn [cols]. rewrite frame_cols.
    rewrite !lookup_insert_Some, lookup_empty.
    intros H.
    repeat match type of H with
           | _ \/ _ => destruct H as [[_ <-]|[_ H]]
           end;
      try discriminate; cbn [column_length];
      first [ apply key_flags_full_length | apply high_5d_previous_length
            | apply change_pct_length | apply volume_sma30_length
            | apply length_map ]. }
  unfold detected_frame. cbn [cols].
  repeat split;
    repeat (rewrite lookup_insert_ne by discriminate);
    rewrite lookup_insert_eq; eauto.
Qed.

Lemma returned_frame_witness :
  breakout_store !! 1%positive = Some (frame_of_bars breakout_bars)
  /\ exists df kb f',
      detect_key_bars (Some 1%positive) breakout_store
      = (Some (Some df, kb), <[df := f']> breakout_store)
      /\ rows f' = length breakout_bars.
Proof.
  split; [reflexivity|].
  destruct (returned_frame_lines_up breakout_store 1%positive breakout_bars)
    as (df & kb & f' & H1 & _ & H2 & _).
  - reflexivity.
  - vm_compute. lia.
  - exists df, kb, f'. split; [exact H1 | exact H2].
Defined.

(** ** The marks beside the total *)

(** The mark and the rating never contradict each other: an excellent
    rating is green, a green mark is at least good, a red mark is at
    most average, and a rating below average is red. *)
Theorem mark_agrees_with_rating (pct : Q) :
  (rating_of pct = Excellent -> score_mark pct = Green)
  /\ (score_mark pct = Green ->
      rating_of pct = Excellent \/ rating_of pct = Good)
  /\ (score_mark pct = Red ->
      rating_of pct = Average \/ rating_of pct = Below_Average
      \/ rating_of pct = Poor)
  /\ (rating_of pct = Below_Average \/ rating_of pct = Poor ->
      score_mark pct = Red)
  /\ (score_mark pct = Yellow <-> 50 <= pct < 70).
Proof.
  unfold rating_of, score_mark.
  by_comparisons; repeat split; intros; try discriminate; try lra; auto;
    try (match goal with H : _ \/ _ |- _ => destruct H; discriminate end);
    try (match goal with H : _ /\ _ |- _ => destruct H; lra end).
Qed.

Lemma mark_witness :
  rating_of 80 = Excellent /\ score_mark 80 = Green.
Proof.
  split; [reflexivity|].
  apply (mark_agrees_with_rating 80). reflexivity.
Defined.

(** ** The technical tab and the whole run *)

Lemma bind_inv {A B} (m : M A) (k : A -> M B) (s s' : store) (b : B) :
  (m ≫= k) s = (Some b, s') ->
  exists a s1, m s = (Some a, s1) /\ k a s1 = (Some b, s').
Proof.
  unfold mbind, M_bind, bind.
  destruct (m s) as [[a|] s1]; [eauto | discriminate].
Qed.

Lemma ret_inv {A} (a b : A) (s s' : store) :
  mret (M := M) a s = (Some b, s') -> a = b /\ s = s'.
Proof. intros [= -> ->]. auto. Qed.

Lemma stage2_of_half_step (close : list num) (q : Q) :
  stage2_of close = Some q -> half_step q.
Proof.
  unfold stage2_of. destruct (last close) as [p|]; [|discriminate].
  simpl. intros [= <-].
  destruct (truthy_ma _ && truthy_ma _ && truthy_ma _);
    [|apply half_step_zero].
  destruct (calc_ma close 50), (calc_ma close 150), (calc_ma close 200);
    try apply half_step_zero.
  apply stage_score_half_step.
Qed.

Lemma flag_score_binary (b : bool) : binary (flag_score b).
Proof. destruct b; [right | left]; reflexivity. Qed.

(** Every score of a technical tab that completes is in its domain. *)
Lemma technical_tab_valid (stock_df : ref) (inp : tech_inputs)
      (s s' : store) (t : tech_scores) :
  technical_tab stock_df inp s = (Some t, s') -> valid_tech t.
Proof.
  unfold technical_tab. intros H.
  apply bind_inv in H as (n & s1 & _ & H).
  apply bind_inv in H as (stage2 & s2 & Hstage & H).
  apply bind_inv in H as (res & s3 & _ & H).
  apply bind_inv in H as (kb & s4 & Hkb & H).
  apply ret_inv in H as [<- _].
  unfold valid_tech. cbn.
  split.
  { destruct (200 <=? n)%nat.
    - apply bind_inv in Hstage as (close & s5 & _ & Hstage).
      destruct (stage2_of close) as [q|] eqn:E; [|discriminate].
      apply ret_inv in Hstage as [<- _]. eapply stage2_of_half_step, E.
    - apply ret_inv in Hstage as [<- _]. apply half_step_zero. }
  split; [apply pulse_score_half_step|].
  split; [apply atr_score_binary|].
  split; [apply flag_score_binary|].
  split; [apply flag_score_binary|].
  eapply key_bar_score_half_step, Hkb.
Qed.

Lemma get_col_at (s : store) (r : ref) (f : frame)
      (name : string) (xs : list num) :
  s !! r = Some f -> cols f !! name = Some (NumCol xs) ->
  get_col r name s = (Some xs, s).
Proof. intros Hr Hc. unfold get_col. rewrite Hr, Hc. reflexivity. Qed.

Lemma detect_key_bars_short (s : store) (r : ref) (f : frame) :
  s !! r = Some f -> (rows f < 30)%nat ->
  detect_key_bars (Some r) s = (Some (None, None), s).
Proof.
  intros Hr Hn. unfold detect_key_bars.
  unfold mbind at 1, M_bind at 1, bind at 1. unfold len at 1.
  rewrite Hr. simpl fmap. cbv beta iota.
  destruct (Nat.ltb_spec (rows f) 30); [reflexivity | lia].
Qed.

Lemma frame_close (bars : list bar) :
  cols (frame_of_bars bars) !! "Close" = Some (NumCol (closes bars)).
Proof.
  rewrite frame_cols.
  repeat (rewrite lookup_insert_ne by discriminate).
  apply lookup_insert_eq.
Qed.

(** Given the values of its widgets, on any frame of bars the scoring
    of the technical tab does not raise, each of its scores is in its
    domain and the total is within [0, 6]; below 200 bars the stage
    score is 0, and below 30 bars the key-bar score is 0 and no frame is
    added. *)
Theorem technical_tab_on_bars
        (s : store) (r : ref) (bars : list bar) (inp : tech_inputs) :
  s !! r = Some (frame_of_bars bars) ->
  exists (t : tech_scores) (s' : store),
    technical_tab r inp s = (Some t, s')
    /\ valid_tech t
    /\ 0 <= total_tech_score t <= 6
    /\ ((length bars < 200)%nat -> t_stage2 t = 0)
    /\ ((length bars < 30)%nat -> t_key_bar t = 0 /\ s' = s).
Proof.
  intros Hr.
  assert (Hstage : exists q,
             (if (200 <=? length bars)%nat
              then close ← get_col r "Close";
                   match stage2_of close with
                   | Some score => mret score
                   | None => raise
                   end
              else mret 0) s = (Some q, s)
             /\ ((length bars < 200)%nat -> q = 0)).
  { destruct (Nat.leb_spec 200 (length bars)) as [H|H].
    - assert (Hlast : is_Some (last bars)).
      { apply last_is_Some. intros ->. simpl in H. lia. }
      destruct Hlast as [last_bar Hlast].
      rewrite (bind_value _ _ _ _ _
                 (get_col_at s r _ "Close" _ Hr (frame_close bars))).
      unfold stage2_of. rewrite (last_closes bars last_bar Hlast).
      cbn [mbind option_bind]. eexists. split; [reflexivity | lia].
    - exists 0. split; [reflexivity | auto]. }
  destruct Hstage as (q & Hq & Hq0).
  assert (Hkb : exists k s',
             (res ← detect_key_bars (Some r);
              calculate_key_bar_score (fst res) (snd res)) s = (Some k, s')
             /\ ((length bars < 30)%nat -> k = 0 /\ s' = s)).
  { destruct (Nat.lt_ge_cases (length bars) 30) as [H|H].
    - exists 0, s. split; [|auto].
      rewrite (bind_value _ _ _ _ _
                 (detect_key_bars_short s r _ Hr H)). reflexivity.
    - destruct (key_bar_step_run s r bars Hr H) as (lb & _ & Hrun).
      eexists. eexists. split; [exact Hrun | lia]. }
  destruct Hkb as (k & s' & Hk & Hk0).
  assert (Hrun : technical_tab r inp s
                 = (Some {| t_stage2 := q;
                            t_market_pulse := pulse_score (i_market_pulse inp);
                            t_atr_percentile :=
                              atr_score (i_atr_percentile inp);
                            t_accumulation_distribution :=
                              flag_score (i_accumulation inp);
                            t_insider_activity := flag_score (i_insider inp);
                            t_key_bar := k |}, s')).
  { unfold technical_tab.
    erewrite bind_value; [|unfold len; rewrite Hr; reflexivity].
    cbn [fmap option_fmap option_map rows frame_of_bars].
    rewrite (bind_value _ _ _ _ _ Hq).
    unfold mbind, M_bind, bind in Hk |- *.
    destruct (detect_key_bars (Some r) s) as [[res|] s1]; [|discriminate].
    rewrite Hk. reflexivity. }
  eexists. eexists. split; [exact Hrun|].
  pose proof (technical_tab_valid _ _ _ _ _ Hrun) as V.
  split; [exact V|]. split; [apply tech_bounds, V|].
  split; [exact Hq0 | exact Hk0].
Qed.

Lemma technical_tab_witness :
  short_store !! 1%positive = Some (frame_of_bars short_bars)
  /\ exists t, technical_tab 1%positive sample_inputs short_store
               = (Some t, short_store).
Proof.
  split; [reflexivity|].
  destruct (technical_tab_on_bars short_store 1%positive short_bars
              sample_inputs) as (t & s' & Hrun & _ & _ & _ & Hshort).
  - reflexivity.
  - destruct Hshort as [_ ->]; [vm_compute; lia|].
    exists t. exact Hrun.
Defined.

(** For every run whose technical tab and fundamental scoring complete,
    whichever provider backed it and whatever the user entered, the
    total is within [0, 13] and the percentage within [0, 100]. *)
Theorem run_total_within_bounds
        (str_jval : jval -> string) (str_status : Z -> string)
        (str_keys : json -> string) (py_int : string -> option Z)
        (ticker av_key : string) (net : http_outcome)
        (primary : fund_data + string)
        (yahoo_info : option (gmap string num))
        (stock_df : ref) (inp : tech_inputs) (s s' : store)
        (t : tech_scores) (f : scores) (top_rated new_dev : bool) :
  technical_tab stock_df inp s = (Some t, s') ->
  fundamental_scores str_jval str_status str_keys py_int ticker av_key net
    primary yahoo_info = Some f ->
  let total := fst (fst (summary t f top_rated new_dev)) in
  let pct := snd (fst (summary t f top_rated new_dev)) in
  0 <= total_tech_score t <= 6
  /\ 0 <= sum_scores f <= 5
  /\ 0 <= total <= 13
  /\ 0 <= pct <= 100.
Proof.
  intros Ht Hf. cbn [summary fst snd].
  pose proof (tech_bounds t (technical_tab_valid _ _ _ _ _ Ht)) as Bt.
  pose proof (fund_bounds f
                (fundamental_scores_valid _ _ _ _ _ _ _ _ _ _ Hf)) as Bf.
  pose proof (remarks_bounds top_rated new_dev) as Br.
  assert (B : 0 <= total_score (total_tech_score t) (sum_scores f)
                     (total_remarks_score top_rated new_dev) <= 13)
    by (unfold total_score; lra).
  split; [exact Bt|]. split; [exact Bf|]. split; [exact B|].
  apply percentage_bounds, B.
Qed.

Lemma run_total_witness :
  exists t : tech_scores,
    technical_tab 1%positive sample_inputs short_store = (Some t, short_store)
    /\ fundamental_scores (fun _ => "") (fun _ => "") (fun _ => "")
         int_decimal "DEMO" "key" (Raised "timed out")
         (inr "no network") None
       = Some no_scores
    /\ 0 <= fst (fst (summary t no_scores true false)) <= 13
    /\ 0 <= snd (fst (summary t no_scores true false)) <= 100.
Proof.
  eexists.
  assert (Ht : technical_tab 1%positive sample_inputs short_store
               = (Some (TechScores 0 1 1 1 0 0), short_store))
    by (vm_compute; reflexivity).
  assert (Hf : fundamental_scores (fun _ => "") (fun _ => "") (fun _ => "")
                 int_decimal "DEMO" "key" (Raised "timed out")
                 (inr "no network") None
               = Some no_scores) by reflexivity.
  split; [exact Ht|]. split; [exact Hf|].
  apply (run_total_within_bounds _ _ _ _ _ _ _ _ _ _ _ _ _ _ _ true false
           Ht Hf).
Defined.
